(** * CocoDataset: annotation-to-record pipeline of
    [mmpose/datasets/datasets2/body/coco_dataset.py]

    A shallow embedding of the [CocoDataset] class: parsing of raw COCO
    annotations into instance records, the instance validity predicate, the
    top-down and bottom-up organisation of the record list, the loading of
    detection results and the score filter, followed by the properties of
    these functions.

    Conventions of the embedding.
    - Python dictionaries with a fixed key set are records; a key that may be
      absent is an [option] field.
    - Numbers are exact rationals ([Q]).  A value stored in a [float32] array
      is represented by the value it was computed from; where the code
      compares a stored score with the threshold, which numpy does in single
      precision, both are rounded to single precision first ([Np.lt32]).
    - An array whose leading (instance) axis has length 1 is represented by its
      single row; an array with [N] instances by the list of its [N] rows.
    - A Python exception is the [Raise] constructor of [result]. *)

From Stdlib Require Import List ZArith QArith Qminmax Qabs Qround Qpower.
From Stdlib Require Import String Ascii.
From Stdlib Require Import Bool Lia.
From Stdlib Require Import Permutation Lqa.
Import ListNotations.

(* ------------------------------------------------------------------ *)
(** ** Exceptions *)

Inductive exn : Type :=
| ValueError
| KeyError
| FileNotFoundError
| AssertionError
| TypeError.

Inductive result (A : Type) : Type :=
| Ok (a : A)
| Raise (e : exn).

Arguments Ok {A} a.
Arguments Raise {A} e.

Definition rbind {A B} (r : result A) (k : A -> result B) : result B :=
  match r with
  | Ok a => k a
  | Raise e => Raise e
  end.

Notation "x <- r ;; k" := (rbind r (fun x => k))
  (at level 61, r at next level, right associativity).

(* ------------------------------------------------------------------ *)
(** ** The fragment of numpy, itertools and os.path that the class uses *)

Module Np.

(** [np.maximum(a, b)] and [np.minimum(a, b)] on scalars. *)
Definition maximum (a b : Q) : Q := if Qle_bool a b then b else a.
Definition minimum (a b : Q) : Q := if Qle_bool a b then a else b.

(** [np.clip(a, a_min, a_max)] is [minimum(a_max, maximum(a, a_min))]. *)
Definition clip (a a_min a_max : Q) : Q := minimum (maximum a a_min) a_max.

(** [a < b] on scalars. *)
Definition lt (a b : Q) : bool := negb (Qle_bool b a).

(** Single precision values: the finite ones by their exact value, and the
    two infinities. *)
Inductive f32 : Type :=
| Fin (q : Q)
| Inf (negative : bool).

(** The integer nearest to [q], the even one of two nearest. *)
Definition round_half_even (q : Q) : Z :=
  let f := Qfloor q in
  match Qcompare (q - inject_Z f) (1 # 2) with
  | Lt => f
  | Gt => (f + 1)%Z
  | Eq => if Z.even f then f else (f + 1)%Z
  end.

(** For [a > 0], the integer [k] with [2 ^ k <= a < 2 ^ (k + 1)]. *)
Definition ilog2 (a : Q) : Z :=
  let k := (Z.log2 (Qnum a) - Z.log2 (Zpos (Qden a)))%Z in
  if Qle_bool (2 ^ k) a then k else (k - 1)%Z.

(** [np.float32(x)]: [x] rounded to the nearest single precision value (24
    bits of precision, least exponent -149, ties to even), an infinity from
    [2 ^ 128 - 2 ^ 103] on. *)
Definition float32 (x : Q) : f32 :=
  if Qeq_bool x 0 then Fin 0
  else
    let a := Qabs x in
    let e := Z.max (ilog2 a - 23) (-149) in
    let r := inject_Z (round_half_even (a / 2 ^ e)) * 2 ^ e in
    if Qle_bool (2 ^ 128) r then Inf (negb (Qle_bool 0 x))
    else Fin (if Qle_bool 0 x then r else - r).

(** [a < b] on single precision values. *)
Definition f32_lt (a b : f32) : bool :=
  match a, b with
  | Fin x, Fin y => lt x y
  | Fin _, Inf negative => negb negative
  | Inf negative, Fin _ => negative
  | Inf na, Inf nb => andb na (negb nb)
  end.

(** [a < thr] for a [float32] array entry [a] and a Python number [thr]:
    numpy compares in single precision. *)
Definition lt32 (a thr : Q) : bool := f32_lt (float32 a) (float32 thr).

(** [np.count_nonzero] of a one-dimensional array. *)
Definition count_nonzero (a : list Q) : nat :=
  List.length (filter (fun v => negb (Qeq_bool v 0)) a).

(** [np.array(l).reshape(1, -1, 3)]: the single row of the result, a list of
    triples; it raises when the length of [l] is not a multiple of 3. *)
Fixpoint reshape_1_m1_3 (l : list Q) : result (list (Q * Q * Q)) :=
  match l with
  | [] => Ok []
  | x :: y :: v :: l' =>
      match reshape_1_m1_3 l' with
      | Ok t => Ok ((x, y, v) :: t)
      | Raise e => Raise e
      end
  | _ => Raise ValueError
  end.

(** [np.array(l[:4]).reshape(1, 4)]: the single row of the result; it raises
    when [l] has fewer than 4 entries. *)
Definition reshape_1_4 (l : list Q) : result (Q * Q * Q * Q) :=
  match firstn 4 l with
  | [a; b; c; d] => Ok (a, b, c, d)
  | _ => Raise ValueError
  end.

(** All arrays of [seq] have the shape of the first one (arrays are given
    by their row of entries along the second axis). *)
Definition same_shape {A} (seq : list (list A)) : bool :=
  match seq with
  | [] => false
  | a :: rest =>
      forallb (fun b => Nat.eqb (List.length b) (List.length a)) rest
  end.

(** [np.concatenate(seq, axis=0)] of arrays of shape [(1, K_i, ...)]: the
    rows stacked in order when all [K_i] agree, an exception otherwise (and
    on an empty sequence). *)
Definition concatenate {A} (seq : list (list A)) : result (list (list A)) :=
  if same_shape seq then Ok seq else Raise ValueError.

End Np.

Module Itertools.

(** [itertools.groupby(l, key)]: the maximal runs of consecutive elements
    with equal keys, each with the key of the run. *)
Fixpoint groupby {A} (key : A -> Z) (l : list A) : list (Z * list A) :=
  match l with
  | [] => []
  | x :: l' =>
      match groupby key l' with
      | (k, g) :: rest =>
          if Z.eqb (key x) k then (key x, x :: g) :: rest
          else (key x, [x]) :: (k, g) :: rest
      | [] => [(key x, [x])]
      end
  end.

(** [itertools.filterfalse(pred, l)]. *)
Definition filterfalse {A} (pred : A -> bool) (l : list A) : list A :=
  filter (fun x => negb (pred x)) l.

End Itertools.

Module OsPath.

Definition sep : string := "/".

Fixpoint endswith_sep (s : string) : bool :=
  match s with
  | EmptyString => false
  | String c EmptyString => Ascii.eqb c "/"
  | String _ s' => endswith_sep s'
  end.

(** [os.path.join(a, b)] (posix). *)
Definition join (a b : string) : string :=
  if String.prefix sep b then b
  else if orb (String.eqb a EmptyString) (endswith_sep a) then String.append a b
  else String.append a (String.append sep b).

End OsPath.

(* ------------------------------------------------------------------ *)
(** ** Data model *)

(** Python truthiness of an integer flag. *)
Definition truthy (z : Z) : bool := negb (Z.eqb z 0).

(** The [segmentation] entry of an annotation: a list of polygons (each a
    flat list of coordinates) or a run-length encoding. *)
Inductive seg_descr : Type :=
| Polygons (parts : list (list Q))
| RLE (size : Z * Z) (counts : list Z).

(** Python truthiness of [ann.get('segmentation', None)]: [None] and the empty
    list are falsy. *)
Definition seg_truthy (s : option seg_descr) : bool :=
  match s with
  | None => false
  | Some (Polygons []) => false
  | Some _ => true
  end.

(** An image entry of the annotation file. *)
Record raw_img : Type := {
  img_id : Z;
  img_file_name : string;
  img_width : Z;
  img_height : Z
}.

(** An annotation entry of the annotation file. *)
Record raw_ann : Type := {
  ann_id : Z;
  ann_image_id : Z;
  ann_bbox : Q * Q * Q * Q;
  ann_keypoints : list Q;
  ann_num_keypoints : option Z;
  ann_iscrowd : option Z;
  ann_segmentation : option seg_descr
}.

(** The dictionary built by [parse_data_info]. *)
Record data_info : Type := {
  di_image_id : Z;
  di_image_file : string;
  di_image_shape : Z * Z * Z;
  di_bbox : Q * Q * Q * Q;            (* shape (1, 4) *)
  di_bbox_score : Q;                  (* shape (1,) *)
  di_num_keypoints : Z;
  di_keypoints : list (Q * Q);        (* shape (1, K, 2) *)
  di_keypoints_visible : list Q;      (* shape (1, K, 1) *)
  di_iscrowd : Z;
  di_segmentation : option seg_descr;
  di_id : Z;
  di_sigmas : list Q
}.

(** An entry of the detection result file. *)
Record det : Type := {
  det_image_id : Z;
  det_category_id : Z;
  det_bbox : list Q;
  det_score : Q
}.

(** The dictionary built by [_load_detection_results]. *)
Record det_info : Type := {
  dt_image_id : Z;
  dt_image_file : string;
  dt_image_shape : Z * Z * Z;
  dt_bbox : Q * Q * Q * Q;            (* shape (1, 4) *)
  dt_bbox_score : Q;                  (* shape (1,) *)
  dt_keypoints : list (Q * Q);        (* shape (1, K, 2) *)
  dt_keypoints_visible : list Q;      (* shape (1, K, 1) *)
  dt_id : Z
}.

Record metainfo_t : Type := {
  meta_sigmas : list Q;
  meta_num_keypoints : nat
}.

Record filter_cfg_t : Type := {
  bbox_score_thr : option Q
}.

(** The interface of the run-length-encoding mask library
    ([xtcocotools.mask]): mask objects, their construction from a region
    descriptor and the image size, the Python iteration of a returned object
    (what [list.extend] consumes) and the merge of a list of masks. *)
Class MaskLibrary : Type := {
  pyobj : Type;
  frPyObjects : seg_descr -> Z -> Z -> pyobj;
  py_iter : pyobj -> list pyobj;
  merge : list pyobj -> pyobj
}.

Section Records.

Context {cocomask : MaskLibrary}.

(** The dictionary built for one image by [_get_bottomup_data_infos]. *)
Record data_info_bu : Type := {
  bu_image_id : Z;
  bu_image_file : string;
  bu_image_shape : Z * Z * Z;
  bu_sigmas : list Q;
  bu_bbox : list (Q * Q * Q * Q);           (* shape (N, 4) *)
  bu_bbox_score : list Q;                   (* shape (N,) *)
  bu_num_keypoints : list Z;
  bu_keypoints : list (list (Q * Q));       (* shape (N, K, 2) *)
  bu_keypoints_visible : list (list Q);     (* shape (N, K, 1) *)
  bu_iscrowd : list Z;
  bu_segmentation : list (option seg_descr);
  bu_id : list Z;
  bu_mask_invalid_rle : pyobj
}.

(** An element of [data_list]. *)
Inductive sample : Type :=
| Instance (d : data_info)
| Detection (d : det_info)
| Aggregate (a : data_info_bu).

(** The attributes of a [CocoDataset] object that the class reads. *)
Record CocoDataset : Type := {
  ann_file : string;
  bbox_file : option string;
  data_mode : string;
  metainfo : metainfo_t;
  img_prefix : string;
  filter_cfg : option filter_cfg_t;
  test_mode : bool;
  lazy_init : bool;
  data_list : list sample
}.

Definition set_data_list (self : CocoDataset) (l : list sample) : CocoDataset :=
  {| ann_file := ann_file self;
     bbox_file := bbox_file self;
     data_mode := data_mode self;
     metainfo := metainfo self;
     img_prefix := img_prefix self;
     filter_cfg := filter_cfg self;
     test_mode := test_mode self;
     lazy_init := lazy_init self;
     data_list := l |}.

(** Truthiness of [bbox_file]: [None] and the empty string are falsy. *)
Definition bbox_file_set (self : CocoDataset) : bool :=
  match bbox_file self with
  | None => false
  | Some p => negb (String.eqb p EmptyString)
  end.

(* ---------------------------------------------------------------- *)
(** ** [parse_data_info] *)

Definition parse_data_info (self : CocoDataset) (ann : raw_ann) (img : raw_img)
  : result data_info :=
  let image_file := OsPath.join (img_prefix self) (img_file_name img) in
  let img_w := img_width img in
  let img_h := img_height img in
  let '(x, y, w, h) := ann_bbox ann in
  let x1 := Np.clip x 0 (inject_Z (img_w - 1)) in
  let y1 := Np.clip y 0 (inject_Z (img_h - 1)) in
  let x2 := Np.clip (x + w) 0 (inject_Z (img_w - 1)) in
  let y2 := Np.clip (y + h) 0 (inject_Z (img_h - 1)) in
  let bbox := (x1, y1, x2 - x1, y2 - y1) in
  _keypoints <- Np.reshape_1_m1_3 (ann_keypoints ann) ;;
  let keypoints := map (fun t => (fst (fst t), snd (fst t))) _keypoints in
  let keypoints_visible := map (fun t => Np.minimum 1 (snd t)) _keypoints in
  let num_keypoints :=
    match ann_num_keypoints ann with
    | Some n => n
    | None =>
        Z.of_nat
          (Np.count_nonzero
             (map (fun p => Np.maximum (fst p) (snd p)) keypoints))
    end in
  Ok {| di_image_id := ann_image_id ann;
        di_image_file := image_file;
        di_image_shape := (img_h, img_w, 3%Z);
        di_bbox := bbox;
        di_bbox_score := 1;
        di_num_keypoints := num_keypoints;
        di_keypoints := keypoints;
        di_keypoints_visible := keypoints_visible;
        di_iscrowd :=
          match ann_iscrowd ann with Some c => c | None => 0%Z end;
        di_segmentation := ann_segmentation ann;
        di_id := ann_id ann;
        di_sigmas := meta_sigmas (metainfo self) |}.

(* ---------------------------------------------------------------- *)
(** ** [_is_valid_instance] and [_get_topdown_data_infos] *)

Definition _is_valid_instance (d : data_info) : bool :=
  if truthy (di_iscrowd d) then false
  else if Z.eqb (di_num_keypoints d) 0 then false
  else
    let '(_, _, w, h) := di_bbox d in
    if orb (Qle_bool w 0) (Qle_bool h 0) then false else true.

Definition _get_topdown_data_infos (l : list data_info) : list data_info :=
  filter _is_valid_instance l.

(* ---------------------------------------------------------------- *)
(** ** [_get_bottomup_data_infos] *)

(** The local function [_concat] on a field whose values are not arrays of
    variable shape: the list of the values.  For the arrays [bbox] (shape
    [(1, 4)]) and [bbox_score] (shape [(1,)]) this list is the concatenated
    array, one row per instance. *)
Definition _concat {A} (seq : list data_info) (key : data_info -> A) : list A :=
  map key seq.

(** [_concat] on a field holding an array of shape [(1, K, ...)]. *)
Definition _concat_ndarray {A} (seq : list data_info) (key : data_info -> list A)
  : result (list (list A)) :=
  Np.concatenate (map key seq).

(** One iteration of the loop over the invalid instances of an image, with
    [rles] the list built so far. *)
Definition rles_step (image_shape : Z * Z * Z) (rles : list pyobj)
           (data_info_invalid : data_info) : list pyobj :=
  match di_segmentation data_info_invalid with
  | None => rles
  | Some seg =>
      if negb (seg_truthy (Some seg)) then rles
      else
        let '(img_h, img_w, _) := image_shape in
        if truthy (di_iscrowd data_info_invalid) then
          rles ++ [frPyObjects seg img_h img_w]
        else if Z.eqb (di_num_keypoints data_info_invalid) 0 then
          rles ++ py_iter (frPyObjects seg img_h img_w)
        else rles
  end.

(** The body of the loop over the groups: [None] when the group is skipped
    by [continue]. *)
Definition bottomup_group (image_id : Z) (data_infos : list data_info)
  : result (option data_info_bu) :=
  let data_infos_valid := filter _is_valid_instance data_infos in
  match data_infos_valid with
  | [] => Ok None
  | first :: _ =>
      let image_file := di_image_file first in
      let image_shape := di_image_shape first in
      let sigmas := di_sigmas first in
      let bbox := _concat data_infos_valid di_bbox in
      let bbox_score := _concat data_infos_valid di_bbox_score in
      let num_keypoints := _concat data_infos_valid di_num_keypoints in
      keypoints <- _concat_ndarray data_infos_valid di_keypoints ;;
      keypoints_visible <-
        _concat_ndarray data_infos_valid di_keypoints_visible ;;
      let iscrowd := _concat data_infos_valid di_iscrowd in
      let segmentation := _concat data_infos_valid di_segmentation in
      let id_ := _concat data_infos_valid di_id in
      let rles :=
        fold_left (rles_step image_shape)
                  (Itertools.filterfalse _is_valid_instance data_infos) [] in
      Ok (Some {| bu_image_id := image_id;
                  bu_image_file := image_file;
                  bu_image_shape := image_shape;
                  bu_sigmas := sigmas;
                  bu_bbox := bbox;
                  bu_bbox_score := bbox_score;
                  bu_num_keypoints := num_keypoints;
                  bu_keypoints := keypoints;
                  bu_keypoints_visible := keypoints_visible;
                  bu_iscrowd := iscrowd;
                  bu_segmentation := segmentation;
                  bu_id := id_;
                  bu_mask_invalid_rle := merge rles |})
  end.

(** The loop over the groups, with [data_list_bu] the list built so far. *)
Fixpoint bottomup_loop (groups : list (Z * list data_info))
         (data_list_bu : list data_info_bu) : result (list data_info_bu) :=
  match groups with
  | [] => Ok data_list_bu
  | (image_id, data_infos) :: rest =>
      r <- bottomup_group image_id data_infos ;;
      match r with
      | None => bottomup_loop rest data_list_bu
      | Some data_info_bu => bottomup_loop rest (data_list_bu ++ [data_info_bu])
      end
  end.

Definition _get_bottomup_data_infos (l : list data_info)
  : result (list data_info_bu) :=
  bottomup_loop (Itertools.groupby di_image_id l) [].

(* ---------------------------------------------------------------- *)
(** ** [filter_data] *)

(** The truth value of [ann['bbox_score'] < thr], a comparison of a
    [float32] array with a Python number.  The score of an instance record is
    an array with one element; an array with another number of elements has
    no truth value. *)
Definition bbox_score_below (thr : Q) (ann : sample) : result bool :=
  match ann with
  | Instance d => Ok (Np.lt32 (di_bbox_score d) thr)
  | Detection d => Ok (Np.lt32 (dt_bbox_score d) thr)
  | Aggregate a =>
      match bu_bbox_score a with
      | [s] => Ok (Np.lt32 s thr)
      | _ => Raise ValueError
      end
  end.

(** [list(filterfalse(pred, l))] for a predicate that may raise. *)
Fixpoint filterfalse_list {A} (pred : A -> result bool) (l : list A)
  : result (list A) :=
  match l with
  | [] => Ok []
  | x :: l' =>
      b <- pred x ;;
      t <- filterfalse_list pred l' ;;
      Ok (if b then t else x :: t)
  end.

Definition filter_data (self : CocoDataset) : result (list sample) :=
  let data_list := data_list self in
  match filter_cfg self with
  | None => Ok data_list
  | Some cfg =>
      match bbox_score_thr cfg with
      | Some thr =>
          if negb (String.eqb (data_mode self) "topdown") then Raise ValueError
          else filterfalse_list (bbox_score_below thr) data_list
      | None => Ok data_list
      end
  end.

(* ---------------------------------------------------------------- *)
(** ** External collaborators: files, the annotation index *)

(** Modelled from the spec: the content of an annotation file, from which
    the Annotation Index of section 6 (the class [COCO] of xtcocotools, not
    among the sources) is built. *)
Record coco_index : Type := {
  coco_imgs : list raw_img;
  coco_anns : list raw_ann
}.

(** Modelled from the spec: "enumerate all image ids" ([COCO.getImgIds]). *)
Definition getImgIds (coco : coco_index) : list Z :=
  map img_id (coco_imgs coco).

(** Modelled from the spec: "given an image id, return its metadata"
    ([COCO.loadImgs(img_id)[0]]); an unknown id raises. *)
Definition loadImgs (coco : coco_index) (id_ : Z) : result raw_img :=
  match find (fun i => Z.eqb (img_id i) id_) (coco_imgs coco) with
  | Some i => Ok i
  | None => Raise KeyError
  end.

(** The crowd flag of an annotation; absent means not crowd (section 3). *)
Definition crowd_flag (ann : raw_ann) : Z :=
  match ann_iscrowd ann with Some c => c | None => 0%Z end.

(** Modelled from the spec: "given an image id and a crowd filter, return
    matching annotation ids" ([COCO.getAnnIds(imgIds, iscrowd)]). *)
Definition getAnnIds (coco : coco_index) (imgIds : Z) (iscrowd : bool) : list Z :=
  map ann_id
      (filter (fun ann =>
                 andb (Z.eqb (ann_image_id ann) imgIds)
                      (Z.eqb (crowd_flag ann) (if iscrowd then 1 else 0)))
              (coco_anns coco)).

(** Modelled from the spec: "given annotation ids, return full annotation
    records" ([COCO.loadAnns]); an unknown id raises. *)
Fixpoint loadAnns (coco : coco_index) (ids : list Z) : result (list raw_ann) :=
  match ids with
  | [] => Ok []
  | i :: rest =>
      match find (fun ann => Z.eqb (ann_id ann) i) (coco_anns coco) with
      | Some ann => t <- loadAnns coco rest ;; Ok (ann :: t)
      | None => Raise KeyError
      end
  end.

(** Modelled from the spec: the files the dataset can read, by path: an
    annotation file or a detection result file (a list of detection
    dictionaries). *)
Inductive file : Type :=
| CocoFile (coco : coco_index)
| DetFile (det_results : list det).

Definition World : Type := string -> option file.

(** The reads of data files, in the order they happen. *)
Inductive event : Type :=
| EvRead (path : string).

(** Computations that read files: the reads performed and the outcome. *)
Definition M (A : Type) : Type := (list event * result A)%type.

Definition mret {A} (a : A) : M A := ([], Ok a).

Definition mlift {A} (r : result A) : M A := ([], r).

Definition mbind {A B} (m : M A) (k : A -> M B) : M B :=
  match m with
  | (t, Ok a) => let '(t', r) := k a in (t ++ t', r)
  | (t, Raise e) => (t, Raise e)
  end.

(** Modelled from the spec: missing-resource errors of section 7
    ([mmengine.utils.check_file_exist]). *)
Definition check_file_exist (w : World) (path : string) : M unit :=
  match w path with
  | Some _ => mret tt
  | None => mlift (Raise FileNotFoundError)
  end.

(** Modelled from the spec: construction of the Annotation Index from a
    file path ([COCO(ann_file)]). *)
Definition COCO (w : World) (path : string) : M coco_index :=
  ([EvRead path],
   match w path with
   | Some (CocoFile coco) => Ok coco
   | Some (DetFile _) => Raise AssertionError
   | None => Raise FileNotFoundError
   end).

(** Modelled from the spec: the External Detection File Loader of section 6
    ([mmcv.fileio.load]) followed by the check that the content is a list
    of dictionaries. *)
Definition load (w : World) (path : string) : M (list det) :=
  ([EvRead path],
   match w path with
   | Some (DetFile det_results) => Ok det_results
   | Some (CocoFile _) => Raise AssertionError
   | None => Raise FileNotFoundError
   end).

End Records.

Notation "x <<- m ;; k" := (mbind m (fun x => k))
  (at level 61, m at next level, right associativity).

Section Loading.

Context {cocomask : MaskLibrary}.

(* ---------------------------------------------------------------- *)
(** ** [_load_annotations] *)

(** The loop over the annotations of one image.  The parsed dictionary is
    never empty, so the branch [if not data_info: continue] is not taken. *)
Fixpoint anns_loop (self : CocoDataset) (img : raw_img) (anns : list raw_ann)
         (data_list : list data_info) : result (list data_info) :=
  match anns with
  | [] => Ok data_list
  | ann :: rest =>
      data_info <- parse_data_info self ann img ;;
      anns_loop self img rest (data_list ++ [data_info])
  end.

(** The loop over the image ids. *)
Fixpoint imgs_loop (self : CocoDataset) (coco : coco_index) (img_ids : list Z)
         (data_list : list data_info) : result (list data_info) :=
  match img_ids with
  | [] => Ok data_list
  | img_id :: rest =>
      img <- loadImgs coco img_id ;;
      let ann_ids := getAnnIds coco img_id false in
      anns <- loadAnns coco ann_ids ;;
      data_list' <- anns_loop self img anns data_list ;;
      imgs_loop self coco rest data_list'
  end.

Definition _load_annotations (w : World) (self : CocoDataset)
  : M (list data_info) :=
  _ <<- check_file_exist w (ann_file self) ;;
  coco <<- COCO w (ann_file self) ;;
  mlift (imgs_loop self coco (getImgIds coco) []).

(* ---------------------------------------------------------------- *)
(** ** [_load_detection_results] *)

(** The loop over the detections, with the list built so far and the next
    identifier. *)
Fixpoint det_loop (self : CocoDataset) (coco : coco_index) (num_keypoints : nat)
         (det_results : list det) (data_list : list det_info) (id_ : Z)
  : result (list det_info) :=
  match det_results with
  | [] => Ok data_list
  | det :: rest =>
      if negb (Z.eqb (det_category_id det) 1) then
        det_loop self coco num_keypoints rest data_list id_
      else
        img <- loadImgs coco (det_image_id det) ;;
        let image_file := OsPath.join (img_prefix self) (img_file_name img) in
        bbox <- Np.reshape_1_4 (det_bbox det) ;;
        let bbox_score := det_score det in
        let keypoints := repeat (0, 0) num_keypoints in
        let keypoints_visible := repeat 1 num_keypoints in
        det_loop self coco num_keypoints rest
                 (data_list ++
                  [{| dt_image_id := det_image_id det;
                      dt_image_file := image_file;
                      dt_image_shape := (img_height img, img_width img, 3%Z);
                      dt_bbox := bbox;
                      dt_bbox_score := bbox_score;
                      dt_keypoints := keypoints;
                      dt_keypoints_visible := keypoints_visible;
                      dt_id := id_ |}])
                 (id_ + 1)%Z
  end.

Definition _load_detection_results (w : World) (self : CocoDataset)
  : M (list det_info) :=
  match bbox_file self with
  | None => mlift (Raise TypeError)
  | Some bbox_path =>
      _ <<- check_file_exist w (ann_file self) ;;
      _ <<- check_file_exist w bbox_path ;;
      det_results <<- load w bbox_path ;;
      coco <<- COCO w (ann_file self) ;;
      let num_keypoints := meta_num_keypoints (metainfo self) in
      mlift (det_loop self coco num_keypoints det_results [] 0%Z)
  end.

(* ---------------------------------------------------------------- *)
(** ** [load_data_list] and [__init__] *)

Definition load_data_list (w : World) (self : CocoDataset) : M (list sample) :=
  if bbox_file_set self then
    data_list <<- _load_detection_results w self ;;
    mret (map Detection data_list)
  else
    data_list <<- _load_annotations w self ;;
    if String.eqb (data_mode self) "topdown" then
      mret (map Instance (_get_topdown_data_infos data_list))
    else
      data_list_bu <<- mlift (_get_bottomup_data_infos data_list) ;;
      mret (map Aggregate data_list_bu).

(** Modelled from the spec: the initialisation of the base class, which is
    not among the sources.  Section 2 gives the control flow: the records
    are loaded and assembled, then the Post-Filter runs on the assembled
    list. *)
Definition full_init (w : World) (self : CocoDataset) : M CocoDataset :=
  l <<- load_data_list w self ;;
  l' <<- mlift (filter_data (set_data_list self l)) ;;
  mret (set_data_list self l').

(** Modelled from the spec: the constructor of the base class; with
    [lazy_init] no annotation is loaded during instantiation (docstring of
    the class). *)
Definition super_init (w : World) (self : CocoDataset) : M CocoDataset :=
  if lazy_init self then mret self else full_init w self.

(** The constructor; [args] carries the arguments (its [data_list] is
    empty). *)
Definition __init__ (w : World) (args : CocoDataset) : M CocoDataset :=
  if negb (orb (String.eqb (data_mode args) "topdown")
               (String.eqb (data_mode args) "bottomup")) then
    mlift (Raise ValueError)
  else if bbox_file_set args then
    if negb (String.eqb (data_mode args) "topdown") then
      mlift (Raise ValueError)
    else if negb (test_mode args) then
      mlift (Raise ValueError)
    else super_init w (set_data_list args [])
  else super_init w (set_data_list args []).

End Loading.

(* ------------------------------------------------------------------ *)
(** ** Notions used to state the properties *)

(** Width and height of a box in (x, y, w, h) form, and its entries. *)
Definition bbox_w (b : Q * Q * Q * Q) : Q := snd (fst b).
Definition bbox_h (b : Q * Q * Q * Q) : Q := snd b.
Definition bbox_values (b : Q * Q * Q * Q) : list Q :=
  [fst (fst (fst b)); snd (fst (fst b)); snd (fst b); snd b].

(** A source box (x, y, w, h) lies beyond an image of extent [dim] along one
    axis: it ends at or before 0, or starts at or after [dim]. *)
Definition outside_axis (lo len : Q) (dim : Z) : Prop :=
  lo + len <= 0 \/ inject_Z dim <= lo.

(** A source box lies fully outside the image: beyond it along the
    horizontal or along the vertical axis. *)
Definition fully_outside (b : Q * Q * Q * Q) (img : raw_img) : Prop :=
  let '(x, y, w, h) := b in
  outside_axis x w (img_width img) \/ outside_axis y h (img_height img).

(** The records that share a key are consecutive: the key of a record is
    that of the next record or does not occur again. *)
Fixpoint contiguous_by {A} (key : A -> Z) (l : list A) : Prop :=
  match l with
  | [] => True
  | x :: l' =>
      match l' with
      | [] => True
      | y :: _ => key y = key x \/ ~ In (key x) (map key l')
      end /\ contiguous_by key l'
  end.

(** All records have [K] keypoint slots. *)
Definition uniform_K (K : nat) (l : list data_info) : Prop :=
  Forall (fun d => List.length (di_keypoints d) = K /\
                   List.length (di_keypoints_visible d) = K) l.

(** A group of records has a valid instance. *)
Definition has_valid (g : Z * list data_info) : bool :=
  existsb _is_valid_instance (snd g).

Section Notions.

Context {cocomask : MaskLibrary}.

(** The regions an invalid instance contributes to the mask of its image,
    in the words of the specification: nothing without a segmentation, one
    mask for a crowd object, all parts of the region for a non-crowd object
    without keypoints, nothing otherwise. *)
Definition invalid_regions (image_shape : Z * Z * Z) (d : data_info)
  : list pyobj :=
  match di_segmentation d with
  | None => []
  | Some seg =>
      if seg_truthy (Some seg) then
        if truthy (di_iscrowd d) then
          [frPyObjects seg (fst (fst image_shape)) (snd (fst image_shape))]
        else if Z.eqb (di_num_keypoints d) 0 then
          py_iter (frPyObjects seg (fst (fst image_shape))
                               (snd (fst image_shape)))
        else []
      else []
  end.

(** The crowd branch of the mask loop is taken for a record. *)
Definition crowd_branch (d : data_info) : bool :=
  andb (seg_truthy (di_segmentation d)) (truthy (di_iscrowd d)).

(** The aggregate record of a group, in the words of the specification:
    scalar fields of the first valid instance, the other fields
    concatenated over the valid instances. *)
Definition aggregate_of (g : Z * list data_info) (a : data_info_bu) : Prop :=
  exists v vs,
    filter _is_valid_instance (snd g) = v :: vs /\
    bu_image_id a = di_image_id v /\
    bu_image_file a = di_image_file v /\
    bu_image_shape a = di_image_shape v /\
    bu_sigmas a = di_sigmas v /\
    bu_bbox a = map di_bbox (v :: vs) /\
    bu_bbox_score a = map di_bbox_score (v :: vs) /\
    bu_num_keypoints a = map di_num_keypoints (v :: vs) /\
    bu_keypoints a = map di_keypoints (v :: vs) /\
    bu_keypoints_visible a = map di_keypoints_visible (v :: vs) /\
    bu_iscrowd a = map di_iscrowd (v :: vs) /\
    bu_segmentation a = map di_segmentation (v :: vs) /\
    bu_id a = map di_id (v :: vs).

(** The record of the detection adapter for a detection, emitted as the
    [i]-th record, in the words of the specification. *)
Definition adapter_record (self : CocoDataset) (coco : coco_index)
           (det : det) (i : Z) (r : det_info) : Prop :=
  exists img,
    loadImgs coco (det_image_id det) = Ok img /\
    dt_image_id r = det_image_id det /\
    dt_image_file r = OsPath.join (img_prefix self) (img_file_name img) /\
    dt_image_shape r = (img_height img, img_width img, 3%Z) /\
    bbox_values (dt_bbox r) = firstn 4 (det_bbox det) /\
    dt_bbox_score r = det_score det /\
    dt_keypoints r = repeat (0, 0) (meta_num_keypoints (metainfo self)) /\
    dt_keypoints_visible r = repeat 1 (meta_num_keypoints (metainfo self)) /\
    dt_id r = i.

(** The detections of the target category. *)
Definition humans (det_results : list det) : list det :=
  filter (fun det => Z.eqb (det_category_id det) 1) det_results.

(** A record of a top-down list: not an aggregate. *)
Definition instance_level (s : sample) : Prop :=
  match s with
  | Aggregate _ => False
  | _ => True
  end.

(** The score of a record of a top-down list. *)
Definition sample_score (s : sample) : Q :=
  match s with
  | Instance d => di_bbox_score d
  | Detection d => dt_bbox_score d
  | Aggregate a => hd 0 (bu_bbox_score a)
  end.

(** The [sigmas] entry of a record, when the key is present. *)
Definition sample_sigmas (s : sample) : option (list Q) :=
  match s with
  | Instance d => Some (di_sigmas d)
  | Detection _ => None
  | Aggregate a => Some (bu_sigmas a)
  end.

End Notions.

(** A symbolic mask library, used to run the bottom-up organisation on
    concrete inputs: a mask is the list of the regions it covers, each a
    descriptor with the image size; iterating the result for a polygon list
    yields one mask per polygon; merging is the union of the regions. *)
Definition sym_mask : Type := list (seg_descr * Z * Z)%type.

Definition sym_frPyObjects (seg : seg_descr) (img_h img_w : Z) : sym_mask :=
  [(seg, img_h, img_w)].

Definition sym_iter (m : sym_mask) : list sym_mask :=
  match m with
  | [(Polygons ps, img_h, img_w)] =>
      map (fun p => [(Polygons [p], img_h, img_w)]) ps
  | _ => []
  end.

#[export] Instance SymbolicMask : MaskLibrary := {|
  pyobj := sym_mask;
  frPyObjects := sym_frPyObjects;
  py_iter := sym_iter;
  merge := @List.concat (seg_descr * Z * Z)%type
|}.

(* ------------------------------------------------------------------ *)
(** ** Concrete inputs *)

Module Ex.

Definition meta : metainfo_t :=
  {| meta_sigmas := [0.026; 0.025]; meta_num_keypoints := 2 |}.

(** A dataset object with the given mode, detection file, filter and flags. *)
Definition dataset (mode : string) (bbox : option string)
           (cfg : option filter_cfg_t) (test lazy : bool) : CocoDataset :=
  {| ann_file := "ann.json";
     bbox_file := bbox;
     data_mode := mode;
     metainfo := meta;
     img_prefix := "imgs";
     filter_cfg := cfg;
     test_mode := test;
     lazy_init := lazy;
     data_list := [] |}.

Definition topdown : CocoDataset := dataset "topdown" None None false false.

Definition img1 : raw_img :=
  {| img_id := 1; img_file_name := "000001.jpg";
     img_width := 1000; img_height := 800 |}.

Definition img2 : raw_img :=
  {| img_id := 2; img_file_name := "000002.jpg";
     img_width := 640; img_height := 480 |}.

(** An annotation of image [image] with two keypoint slots. *)
Definition ann (id_ image : Z) (box : Q * Q * Q * Q) (nk : option Z)
           (crowd : option Z) (seg : option seg_descr) : raw_ann :=
  {| ann_id := id_;
     ann_image_id := image;
     ann_bbox := box;
     ann_keypoints := [20; 30; 2; 40; 50; 1];
     ann_num_keypoints := nk;
     ann_iscrowd := crowd;
     ann_segmentation := seg |}.

(** A person inside image 1, and a box to the right of image 1. *)
Definition ann_inside : raw_ann :=
  ann 11 1 (10, 10, 50, 50) (Some 2%Z) (Some 0%Z) None.

Definition ann_right : raw_ann :=
  ann 12 1 (2000, 10, 50, 50) (Some 2%Z) (Some 0%Z) None.

(** A record of image [image] with identifier [id_]. *)
Definition record (id_ image : Z) (box : Q * Q * Q * Q) (score : Q) (nk crowd : Z)
           (seg : option seg_descr) : data_info :=
  {| di_image_id := image;
     di_image_file := "imgs/x.jpg";
     di_image_shape := (800, 1000, 3)%Z;
     di_bbox := box;
     di_bbox_score := score;
     di_num_keypoints := nk;
     di_keypoints := [(20, 30); (40, 50)];
     di_keypoints_visible := [1; 1];
     di_iscrowd := crowd;
     di_segmentation := seg;
     di_id := id_;
     di_sigmas := meta_sigmas meta |}.

Definition valid_record (id_ image : Z) : data_info :=
  record id_ image (10, 10, 50, 50) 1 2 0 None.

(** A crowd object with a run-length-encoded region, and a person without
    keypoints whose region has two polygons. *)
Definition crowd_record (id_ image : Z) : data_info :=
  record id_ image (10, 10, 50, 50) 1 2 1 (Some (RLE (800, 1000) [5; 7])%Z).

Definition zero_kpt_record (id_ image : Z) : data_info :=
  record id_ image (10, 10, 50, 50) 1 0 0
         (Some (Polygons [[1; 1; 5; 1; 5; 5]; [7; 7; 9; 7; 9; 9]])).

(** A person with keypoints whose box is degenerate. *)
Definition degenerate_record (id_ image : Z) : data_info :=
  record id_ image (10, 10, 0, 50) 1 2 0
         (Some (Polygons [[1; 1; 5; 1; 5; 5]])).

(** Records of two images, those of each image consecutive. *)
Definition records : list data_info :=
  [valid_record 1 1; crowd_record 2 1; zero_kpt_record 3 1; valid_record 4 1;
   degenerate_record 5 2; valid_record 6 2; zero_kpt_record 7 3].

(** Records in which image 1 occurs before and after image 2. *)
Definition interleaved : list data_info :=
  [valid_record 1 1; valid_record 2 2; valid_record 3 1].

(** An annotation file with two images and four annotations, one of them a
    crowd, and a detection file with a detection of another category. *)
Definition ann_crowd : raw_ann :=
  ann 13 1 (100, 100, 200, 200) (Some 0%Z) (Some 1%Z)
      (Some (RLE (800, 1000) [5; 7])%Z).

Definition ann_other : raw_ann :=
  ann 21 2 (5, 5, 20, 20) None None (Some (Polygons [[1; 1; 5; 1; 5; 5]])).

Definition coco : coco_index :=
  {| coco_imgs := [img1; img2];
     coco_anns := [ann_inside; ann_right; ann_crowd; ann_other] |}.

Definition dets : list det :=
  [ {| det_image_id := 1; det_category_id := 1;
       det_bbox := [-5; 20; 3000; 40]; det_score := 0.9 |};
    {| det_image_id := 1; det_category_id := 2;
       det_bbox := [1; 2; 3; 4]; det_score := 0.8 |};
    {| det_image_id := 2; det_category_id := 1;
       det_bbox := [7; 8; 9; 10; 11]; det_score := 0.4 |} ].

Definition world : World :=
  fun path =>
    if String.eqb path "ann.json" then Some (CocoFile coco)
    else if String.eqb path "dets.json" then Some (DetFile dets)
    else None.

(** A top-down dataset in test mode reading the detection file. *)
Definition with_detections : CocoDataset :=
  dataset "topdown" (Some "dets.json"%string) None true false.

(** A top-down dataset holding records with scores 0.9, 0.4 and 0.6 and a
    score threshold of 0.5. *)
Definition scored : CocoDataset :=
  set_data_list
    (dataset "topdown" None (Some {| bbox_score_thr := Some 0.5 |}) false false)
    [Instance (record 1 1 (10, 10, 50, 50) 0.9 2 0 None);
     Instance (record 2 1 (10, 10, 50, 50) 0.4 2 0 None);
     Instance (record 3 1 (10, 10, 50, 50) 0.6 2 0 None)].

(** A bottom-up dataset with a score threshold. *)
Definition bottomup_thr (lazy : bool) : CocoDataset :=
  dataset "bottomup" None (Some {| bbox_score_thr := Some 0.5 |}) false lazy.

End Ex.

(* ------------------------------------------------------------------ *)
(** ** Notions used to state further properties *)

(** The annotations the loader reads for an image: those of the image that
    are not crowds, in file order. *)
Definition image_anns (coco : coco_index) (img_id : Z) : list raw_ann :=
  filter (fun ann => andb (Z.eqb (ann_image_id ann) img_id)
                          (Z.eqb (crowd_flag ann) 0))
         (coco_anns coco).

(** The annotations the loader reads, image by image. *)
Definition loadable_anns (coco : coco_index) : list raw_ann :=
  flat_map (image_anns coco) (getImgIds coco).

(** [x] is a single precision value: rounding leaves it unchanged. *)
Definition single_precision (x : Q) : Prop :=
  match Np.float32 x with
  | Np.Fin y => y == x
  | Np.Inf _ => False
  end.

(** The keypoint arrays of the valid instances of a group can be
    concatenated. *)
Definition group_concatenable (g : Z * list data_info) : bool :=
  match filter _is_valid_instance (snd g) with
  | [] => true
  | valid =>
      andb (Np.same_shape (map di_keypoints valid))
           (Np.same_shape (map di_keypoints_visible valid))
  end.

Section MoreNotions.

Context {cocomask : MaskLibrary}.

(** The configuration passes the checks of the constructor. *)
Definition valid_config (args : CocoDataset) : Prop :=
  (data_mode args = "topdown"%string \/ data_mode args = "bottomup"%string) /\
  (bbox_file_set args = true ->
   data_mode args = "topdown"%string /\ test_mode args = true).

(** Two dataset objects differ at most in their data list. *)
Definition same_config (a b : CocoDataset) : Prop :=
  ann_file a = ann_file b /\ bbox_file a = bbox_file b /\
  data_mode a = data_mode b /\ metainfo a = metainfo b /\
  img_prefix a = img_prefix b /\ filter_cfg a = filter_cfg b /\
  test_mode a = test_mode b /\ lazy_init a = lazy_init b.

(** The image id of a record. *)
Definition sample_image_id (s : sample) : Z :=
  match s with
  | Instance d => di_image_id d
  | Detection d => dt_image_id d
  | Aggregate a => bu_image_id a
  end.

End MoreNotions.

Module Ex2.

(** An annotation whose keypoint list is not a sequence of triples. *)
Definition ann_malformed : raw_ann :=
  {| ann_id := 31; ann_image_id := 1; ann_bbox := (10, 10, 50, 50);
     ann_keypoints := [20; 30; 2; 40];
     ann_num_keypoints := None; ann_iscrowd := None;
     ann_segmentation := None |}.

(** An annotation without a supplied count whose slots are (0, 0), (-5, 0)
    and (-3, -2). *)
Definition ann_counted : raw_ann :=
  {| ann_id := 32; ann_image_id := 1; ann_bbox := (10, 10, 50, 50);
     ann_keypoints := [0; 0; 0; -5; 0; 2; -3; -2; 5];
     ann_num_keypoints := None; ann_iscrowd := None;
     ann_segmentation := None |}.

(** A box that crosses the right border of image 1. *)
Definition ann_crossing : raw_ann :=
  Ex.ann 33 1 (900, 10, 300, 50) (Some 2%Z) (Some 0%Z) None.

(** A valid record of image [image] with one keypoint slot. *)
Definition short_record (id_ image : Z) : data_info :=
  {| di_image_id := image;
     di_image_file := "imgs/x.jpg";
     di_image_shape := (800, 1000, 3)%Z;
     di_bbox := (10, 10, 50, 50);
     di_bbox_score := 1;
     di_num_keypoints := 1;
     di_keypoints := [(20, 30)];
     di_keypoints_visible := [1];
     di_iscrowd := 0;
     di_segmentation := None;
     di_id := id_;
     di_sigmas := meta_sigmas Ex.meta |}.

(** Image 1 with two keypoint slots, image 2 with one. *)
Definition mixed_images : list data_info :=
  [Ex.valid_record 1 1; Ex.valid_record 2 1; short_record 3 2].

(** One image with records of two and of one keypoint slot. *)
Definition mixed_group : list data_info :=
  [Ex.valid_record 1 1; short_record 2 1].

(** A detection file whose second detection of category 1 has three box
    values. *)
Definition bad_dets : list det :=
  [ {| det_image_id := 1; det_category_id := 1;
       det_bbox := [1; 2; 3; 4]; det_score := 0.9 |};
    {| det_image_id := 1; det_category_id := 1;
       det_bbox := [1; 2; 3]; det_score := 0.8 |} ].

(** A top-down dataset holding one record with score 1 and a score threshold
    of 1.00000001. *)
Definition near_one : CocoDataset :=
  set_data_list
    (Ex.dataset "topdown" None (Some {| bbox_score_thr := Some 1.00000001 |})
                false false)
    [Instance (Ex.valid_record 1 1)].

(** A top-down dataset with a score threshold. *)
Definition topdown_thr (thr : Q) : CocoDataset :=
  Ex.dataset "topdown" None (Some {| bbox_score_thr := Some thr |}) false false.

End Ex2.

(* ------------------------------------------------------------------ *)
(** * Properties *)


(** ** Clipping *)

Lemma Qle_bool_false (a b : Q) : Qle_bool a b = false <-> b < a.
Proof.
  split; intro Hab.
  - apply Qnot_le_lt. intro Hle. apply Qle_bool_iff in Hle. congruence.
  - destruct (Qle_bool a b) eqn:E; trivial.
    apply Qle_bool_iff in E. lra.
Qed.

Ltac qcases :=
  repeat match goal with
         | |- context [Qle_bool ?a ?b] =>
             lazymatch a with
             | context [Qle_bool _ _] => fail
             | _ => idtac
             end;
             let E := fresh "E" in
             destruct (Qle_bool a b) eqn:E;
             [apply Qle_bool_iff in E | apply Qle_bool_false in E]
         end.

Lemma minimum_le_l (a b : Q) : Np.minimum a b <= a.
Proof. unfold Np.minimum. qcases; lra. Qed.

Lemma minimum_le_r (a b : Q) : Np.minimum a b <= b.
Proof. unfold Np.minimum. qcases; lra. Qed.

Lemma minimum_glb (c a b : Q) : c <= a -> c <= b -> c <= Np.minimum a b.
Proof. unfold Np.minimum. intros. qcases; lra. Qed.

Lemma maximum_ge_l (a b : Q) : a <= Np.maximum a b.
Proof. unfold Np.maximum. qcases; lra. Qed.

Lemma maximum_ge_r (a b : Q) : b <= Np.maximum a b.
Proof. unfold Np.maximum. qcases; lra. Qed.

Lemma clip_le_max (a lo hi : Q) : Np.clip a lo hi <= hi.
Proof. apply minimum_le_r. Qed.

Lemma clip_in_range (a lo hi : Q) :
  lo <= hi -> lo <= Np.clip a lo hi /\ Np.clip a lo hi <= hi.
Proof.
  intro Hr. split; [| apply clip_le_max].
  apply minimum_glb; [apply maximum_ge_r | exact Hr].
Qed.

(** A value at or above the upper bound is clipped to the bound itself. *)
Lemma clip_above (a lo hi : Q) : hi <= a -> Np.clip a lo hi == hi.
Proof.
  intro Ha. unfold Np.clip, Np.minimum, Np.maximum. qcases; lra.
Qed.

(** Clipping is monotone in the clipped value. *)
Lemma clip_mono (a b lo hi : Q) : a <= b -> Np.clip a lo hi <= Np.clip b lo hi.
Proof.
  intro Hab. unfold Np.clip, Np.minimum, Np.maximum. qcases; lra.
Qed.

(** A value at or below the lower bound is clipped to the least clipped
    value. *)
Lemma clip_below (a b lo hi : Q) : a <= lo -> Np.clip a lo hi <= Np.clip b lo hi.
Proof.
  intro Ha. unfold Np.clip, Np.minimum, Np.maximum. qcases; lra.
Qed.

(** The clipped extent of a box that lies beyond the image along an axis is
    not positive. *)
Lemma clipped_extent_outside (lo len : Q) (dim : Z) :
  outside_axis lo len dim ->
  Np.clip (lo + len) 0 (inject_Z (dim - 1)) -
  Np.clip lo 0 (inject_Z (dim - 1)) <= 0.
Proof.
  intros [Hleft | Hright].
  - pose proof (clip_below (lo + len) lo 0 (inject_Z (dim - 1)) Hleft). lra.
  - assert (Hhi : inject_Z (dim - 1) <= lo).
    { unfold Z.sub. rewrite inject_Z_plus. simpl inject_Z at 2.
      change (inject_Z (-1)) with (- (1))%Q. lra. }
    pose proof (clip_above lo 0 (inject_Z (dim - 1)) Hhi).
    pose proof (clip_le_max (lo + len) 0 (inject_Z (dim - 1))). lra.
Qed.

(** ** Reshaping the keypoints *)

Lemma reshape_1_m1_3_total (l : list Q) :
  (List.length l mod 3 = 0)%nat -> exists t, Np.reshape_1_m1_3 l = Ok t.
Proof.
  remember (List.length l) as n eqn:Hn.
  revert l Hn. induction n as [n IH] using lt_wf_ind. intros l Hn Hmod.
  destruct l as [| x [| y [| v l']]].
  - exists []. reflexivity.
  - subst n. discriminate.
  - subst n. discriminate.
  - destruct (IH (List.length l')) with (l := l') as [t Ht].
    + subst n. simpl. lia.
    + reflexivity.
    + subst n. simpl List.length in Hmod.
      replace (S (S (S (List.length l')))) with (List.length l' + 1 * 3)%nat in Hmod by lia.
      rewrite Nat.Div0.mod_add in Hmod. exact Hmod.
    + exists ((x, y, v) :: t). simpl. rewrite Ht. reflexivity.
Qed.

(** ** The validity predicate *)

Lemma truthy_true (z : Z) : truthy z = true <-> z <> 0%Z.
Proof.
  unfold truthy. rewrite negb_true_iff. apply Z.eqb_neq.
Qed.

Lemma is_valid_instance_false (d : data_info) :
  _is_valid_instance d = false <->
  (truthy (di_iscrowd d) = true \/ di_num_keypoints d = 0%Z \/
   bbox_w (di_bbox d) <= 0 \/ bbox_h (di_bbox d) <= 0).
Proof.
  unfold _is_valid_instance, bbox_w, bbox_h.
  destruct (di_bbox d) as [[[x y] w] h]. simpl.
  destruct (truthy (di_iscrowd d)) eqn:Ec; [tauto |].
  destruct (Z.eqb (di_num_keypoints d) 0) eqn:En.
  { apply Z.eqb_eq in En. tauto. }
  apply Z.eqb_neq in En.
  destruct (Qle_bool w 0) eqn:Ew; simpl.
  { apply Qle_bool_iff in Ew. tauto. }
  apply Qle_bool_false in Ew.
  destruct (Qle_bool h 0) eqn:Eh.
  { apply Qle_bool_iff in Eh. tauto. }
  apply Qle_bool_false in Eh.
  split; [discriminate |].
  intros [H | [H | [H | H]]]; try discriminate; try contradiction; lra.
Qed.

(** ** [parse_data_info] *)

Lemma inject_Z_pred_nonneg (z : Z) : (1 <= z)%Z -> 0 <= inject_Z (z - 1).
Proof.
  intro Hz. change 0 with (inject_Z 0). rewrite <- Zle_Qle. lia.
Qed.

(** C2 (amended).  When the keypoint list of the annotation is a sequence of
    triples, [parse_data_info] returns a record without raising; its box is
    [(x1, y1, x2 - x1, y2 - y1)] for the corners [(x, y)] and
    [(x + w, y + h)] clipped to [0, W - 1] and [0, H - 1]; the re-derived
    width is not positive when the source box lies beyond the image
    horizontally, the re-derived height is not positive when it lies beyond
    the image vertically, and in both cases the record is invalid whatever
    its keypoints are. *)
Theorem parse_data_info_bbox `{MaskLibrary} (self : CocoDataset)
        (ann : raw_ann) (img : raw_img) :
  (List.length (ann_keypoints ann) mod 3 = 0)%nat ->
  exists d,
    parse_data_info self ann img = Ok d /\
    let '(x, y, w, h) := ann_bbox ann in
    let W1 := inject_Z (img_width img - 1) in
    let H1 := inject_Z (img_height img - 1) in
    let x1 := Np.clip x 0 W1 in
    let y1 := Np.clip y 0 H1 in
    let x2 := Np.clip (x + w) 0 W1 in
    let y2 := Np.clip (y + h) 0 H1 in
    di_bbox d = (x1, y1, x2 - x1, y2 - y1) /\
    ((1 <= img_width img)%Z -> 0 <= x1 <= W1 /\ 0 <= x2 <= W1) /\
    ((1 <= img_height img)%Z -> 0 <= y1 <= H1 /\ 0 <= y2 <= H1) /\
    (outside_axis x w (img_width img) -> bbox_w (di_bbox d) <= 0) /\
    (outside_axis y h (img_height img) -> bbox_h (di_bbox d) <= 0) /\
    (fully_outside (ann_bbox ann) img -> _is_valid_instance d = false).
Proof.
  intro Hk. destruct (reshape_1_m1_3_total _ Hk) as [t Ht].
  unfold parse_data_info, fully_outside.
  destruct (ann_bbox ann) as [[[x y] w] h]. rewrite Ht. simpl rbind.
  eexists. split; [reflexivity |]. cbv zeta.
  split; [reflexivity |].
  split; [intro HW; pose proof (inject_Z_pred_nonneg _ HW);
          split; apply clip_in_range; assumption |].
  split; [intro HH; pose proof (inject_Z_pred_nonneg _ HH);
          split; apply clip_in_range; assumption |].
  assert (Hx : outside_axis x w (img_width img) ->
               Np.clip (x + w) 0 (inject_Z (img_width img - 1)) -
               Np.clip x 0 (inject_Z (img_width img - 1)) <= 0)
    by apply clipped_extent_outside.
  assert (Hy : outside_axis y h (img_height img) ->
               Np.clip (y + h) 0 (inject_Z (img_height img - 1)) -
               Np.clip y 0 (inject_Z (img_height img - 1)) <= 0)
    by apply clipped_extent_outside.
  split; [exact Hx |]. split; [exact Hy |].
  intro Hout. apply is_valid_instance_false. right. right.
  unfold bbox_w, bbox_h. simpl. tauto.
Qed.

Lemma parse_data_info_bbox_witness :
  (List.length (ann_keypoints Ex.ann_inside) mod 3 = 0)%nat /\
  exists d,
    parse_data_info Ex.topdown Ex.ann_inside Ex.img1 = Ok d /\
    let '(x, y, w, h) := ann_bbox Ex.ann_inside in
    let W1 := inject_Z (img_width Ex.img1 - 1) in
    let H1 := inject_Z (img_height Ex.img1 - 1) in
    let x1 := Np.clip x 0 W1 in
    let y1 := Np.clip y 0 H1 in
    let x2 := Np.clip (x + w) 0 W1 in
    let y2 := Np.clip (y + h) 0 H1 in
    di_bbox d = (x1, y1, x2 - x1, y2 - y1) /\
    ((1 <= img_width Ex.img1)%Z -> 0 <= x1 <= W1 /\ 0 <= x2 <= W1) /\
    ((1 <= img_height Ex.img1)%Z -> 0 <= y1 <= H1 /\ 0 <= y2 <= H1) /\
    (outside_axis x w (img_width Ex.img1) -> bbox_w (di_bbox d) <= 0) /\
    (outside_axis y h (img_height Ex.img1) -> bbox_h (di_bbox d) <= 0) /\
    (fully_outside (ann_bbox Ex.ann_inside) Ex.img1 ->
     _is_valid_instance d = false).
Proof.
  split; [reflexivity |].
  apply (parse_data_info_bbox Ex.topdown Ex.ann_inside Ex.img1).
  reflexivity.
Defined.

(** The box (2000, 10, 50, 50) lies fully outside a 1000 x 800 image (to its
    right), its record is produced, and the re-derived height is 50, which is
    positive. *)
Lemma fully_outside_height_positive :
  fully_outside (ann_bbox Ex.ann_right) Ex.img1 /\
  exists d,
    parse_data_info Ex.topdown Ex.ann_right Ex.img1 = Ok d /\
    bbox_h (di_bbox d) == 50 /\
    ~ (bbox_w (di_bbox d) <= 0 /\ bbox_h (di_bbox d) <= 0).
Proof.
  split.
  - left. right. vm_compute. discriminate.
  - eexists. split; [reflexivity |]. split.
    + vm_compute. reflexivity.
    + intros [_ Hh]. vm_compute in Hh. apply Hh. reflexivity.
Qed.

(** Scenario: box (10, 10, 50, 50) in a 1000 x 800 image with two annotated
    keypoints and [iscrowd] 0 is stored unchanged and kept by the top-down
    organisation; the same annotation marked as a crowd is dropped. *)
Example topdown_valid_instance :
  exists d,
    parse_data_info Ex.topdown Ex.ann_inside Ex.img1 = Ok d /\
    di_bbox d = (10, 10, 60 - 10, 60 - 10) /\
    bbox_w (di_bbox d) == 50 /\ bbox_h (di_bbox d) == 50 /\
    di_num_keypoints d = 2%Z /\
    di_image_file d = "imgs/000001.jpg"%string /\
    _get_topdown_data_infos [d] = [d].
Proof.
  eexists. split; [reflexivity |].
  repeat split; reflexivity.
Qed.

Example topdown_crowd_excluded :
  exists d,
    parse_data_info Ex.topdown
      (Ex.ann 11 1 (10, 10, 50, 50) (Some 2%Z) (Some 1%Z) None) Ex.img1 = Ok d /\
    _get_topdown_data_infos [d] = [].
Proof. eexists. split; reflexivity. Qed.

(** Visibilities above 1 become 1, 0 stays 0; without a supplied count the
    annotated keypoints are counted. *)
Example parse_visibility_and_count :
  exists d,
    parse_data_info Ex.topdown Ex.ann_other Ex.img2 = Ok d /\
    di_keypoints d = [(20, 30); (40, 50)] /\
    di_keypoints_visible d = [1; 1] /\
    di_num_keypoints d = 2%Z /\
    di_iscrowd d = 0%Z.
Proof. eexists. split; [reflexivity |]. repeat split; reflexivity. Qed.

(** ** Grouping by key *)

Section Groupby.

Context {A : Type} (key : A -> Z).

Lemma groupby_concat (l : list A) :
  List.concat (map snd (Itertools.groupby key l)) = l.
Proof.
  induction l as [| x l IH]; simpl; [reflexivity |].
  destruct (Itertools.groupby key l) as [| [k g] rest] eqn:E.
  - simpl in IH. subst l. reflexivity.
  - destruct (Z.eqb (key x) k); simpl in *; rewrite IH; reflexivity.
Qed.

(** Every group is a non-empty list of elements with the key of the group. *)
Lemma groupby_groups (l : list A) :
  Forall (fun kg => snd kg <> [] /\ Forall (fun x => key x = fst kg) (snd kg))
         (Itertools.groupby key l).
Proof.
  induction l as [| x l IH]; simpl; [constructor |].
  destruct (Itertools.groupby key l) as [| [k g] rest] eqn:E.
  - constructor; [| constructor]. simpl. split; [discriminate |].
    constructor; [reflexivity | constructor].
  - inversion IH as [| ? ? [Hne Hk] Hrest]; subst. simpl in *.
    destruct (Z.eqb (key x) k) eqn:Ek.
    + apply Z.eqb_eq in Ek. constructor; [| exact Hrest]. simpl.
      split; [discriminate |]. constructor; [reflexivity |].
      rewrite Ek. exact Hk.
    + constructor; [| constructor; [split; assumption | exact Hrest]].
      simpl. split; [discriminate |]. constructor; [reflexivity | constructor].
Qed.

(** The first group carries the key of the first element. *)
Lemma groupby_head (x : A) (l : list A) :
  exists g rest, Itertools.groupby key (x :: l) = (key x, g) :: rest.
Proof.
  simpl. destruct (Itertools.groupby key l) as [| [k g] rest].
  - eauto.
  - destruct (Z.eqb (key x) k); eauto.
Qed.

Lemma groupby_keys_incl (l : list A) (k : Z) :
  In k (map fst (Itertools.groupby key l)) -> In k (map key l).
Proof.
  revert k. induction l as [| x l IH]; simpl; [tauto |]. intros k0.
  destruct (Itertools.groupby key l) as [| [k g] rest] eqn:E; simpl.
  - tauto.
  - destruct (Z.eqb (key x) k) eqn:Ek; simpl.
    + apply Z.eqb_eq in Ek. intros [Hk | Hk].
      * left. exact Hk.
      * right. apply IH. simpl. right. exact Hk.
    + intros [Hk | Hk]; [left; exact Hk | right; apply IH; exact Hk].
Qed.

(** On a list whose equal keys are consecutive, no two groups share a key. *)
Lemma groupby_keys_NoDup (l : list A) :
  contiguous_by key l -> NoDup (map fst (Itertools.groupby key l)).
Proof.
  induction l as [| x l IH]; [constructor |].
  intros [Hx Hl]. specialize (IH Hl).
  destruct l as [| y l'].
  - simpl. constructor; [intros [] | constructor].
  - destruct (groupby_head y l') as (g & rest & E).
    change (Itertools.groupby key (x :: y :: l'))
      with (match Itertools.groupby key (y :: l') with
            | (k, g) :: rest =>
                if Z.eqb (key x) k then (key x, x :: g) :: rest
                else (key x, [x]) :: (k, g) :: rest
            | [] => [(key x, [x])]
            end).
    rewrite E in *. destruct (Z.eqb (key x) (key y)) eqn:Ek.
    + apply Z.eqb_eq in Ek. simpl in *. rewrite Ek. exact IH.
    + apply Z.eqb_neq in Ek. simpl map at 1.
      constructor; [| exact IH].
      intro Hin. destruct Hx as [Hx | Hx]; [congruence |].
      apply Hx. apply groupby_keys_incl. rewrite E. exact Hin.
Qed.

End Groupby.

(** ** The bottom-up organisation *)

Section Bottomup.

Context {cocomask : MaskLibrary}.

Lemma concatenate_uniform {A B} (key : A -> list B) (K : nat) (v : A) (vs : list A) :
  Forall (fun d => List.length (key d) = K) (v :: vs) ->
  Np.concatenate (map key (v :: vs)) = Ok (map key (v :: vs)).
Proof.
  intro HK. unfold Np.concatenate.
  replace (Np.same_shape (map key (v :: vs))) with true; [reflexivity |].
  symmetry. simpl. apply forallb_forall. intros b Hb.
  apply in_map_iff in Hb. destruct Hb as (d & <- & Hd).
  inversion HK as [| ? ? Hv Hvs]; subst.
  rewrite Forall_forall in Hvs. rewrite (Hvs d Hd). apply Nat.eqb_refl.
Qed.

Lemma concatenate_ok {A} (seq out : list (list A)) :
  Np.concatenate seq = Ok out -> out = seq.
Proof.
  unfold Np.concatenate. destruct (Np.same_shape seq); congruence.
Qed.

(** The mask loop appends to [rles] the regions of each instance. *)
Lemma rles_step_regions (image_shape : Z * Z * Z) (rles : list pyobj)
      (d : data_info) :
  rles_step image_shape rles d = rles ++ invalid_regions image_shape d.
Proof.
  unfold rles_step, invalid_regions.
  destruct image_shape as [[img_h img_w] c]. simpl fst. simpl snd.
  destruct (di_segmentation d) as [seg |]; [| now rewrite app_nil_r].
  destruct (seg_truthy (Some seg)); simpl negb; cbv iota;
    [| now rewrite app_nil_r].
  destruct (truthy (di_iscrowd d)); [reflexivity |].
  destruct (Z.eqb (di_num_keypoints d) 0); [reflexivity |].
  now rewrite app_nil_r.
Qed.

Lemma rles_fold_regions (image_shape : Z * Z * Z) (l : list data_info)
      (rles : list pyobj) :
  fold_left (rles_step image_shape) l rles =
  rles ++ flat_map (invalid_regions image_shape) l.
Proof.
  revert rles. induction l as [| d l IH]; intro rles; simpl.
  - now rewrite app_nil_r.
  - rewrite IH, rles_step_regions, <- app_assoc. reflexivity.
Qed.

Lemma has_valid_filter (g : Z * list data_info) :
  has_valid g = false <-> filter _is_valid_instance (snd g) = [].
Proof.
  unfold has_valid. induction (snd g) as [| d l IH]; simpl; [tauto |].
  destruct (_is_valid_instance d); simpl; [| exact IH].
  split; discriminate.
Qed.

Lemma has_valid_true (g : Z * list data_info) :
  has_valid g = true <->
  exists d, In d (snd g) /\ _is_valid_instance d = true.
Proof. apply existsb_exists. Qed.

(** A group without valid instance is skipped. *)
Lemma bottomup_group_skip (k : Z) (g : list data_info) :
  filter _is_valid_instance g = [] -> bottomup_group k g = Ok None.
Proof. unfold bottomup_group. intros ->. reflexivity. Qed.

Lemma bottomup_group_none (k : Z) (g : list data_info) :
  bottomup_group k g = Ok None -> filter _is_valid_instance g = [].
Proof.
  unfold bottomup_group.
  destruct (filter _is_valid_instance g) as [| v vs]; [reflexivity |].
  destruct (_concat_ndarray (v :: vs) di_keypoints); simpl; [| discriminate].
  destruct (_concat_ndarray (v :: vs) di_keypoints_visible); discriminate.
Qed.

(** What the loop body returns for a group with a valid instance. *)
Lemma bottomup_group_some (k : Z) (g : list data_info) (a : data_info_bu) :
  bottomup_group k g = Ok (Some a) ->
  exists v vs,
    filter _is_valid_instance g = v :: vs /\
    bu_image_id a = k /\
    bu_image_file a = di_image_file v /\
    bu_image_shape a = di_image_shape v /\
    bu_sigmas a = di_sigmas v /\
    bu_bbox a = map di_bbox (v :: vs) /\
    bu_bbox_score a = map di_bbox_score (v :: vs) /\
    bu_num_keypoints a = map di_num_keypoints (v :: vs) /\
    bu_keypoints a = map di_keypoints (v :: vs) /\
    bu_keypoints_visible a = map di_keypoints_visible (v :: vs) /\
    bu_iscrowd a = map di_iscrowd (v :: vs) /\
    bu_segmentation a = map di_segmentation (v :: vs) /\
    bu_id a = map di_id (v :: vs) /\
    bu_mask_invalid_rle a =
      merge (flat_map (invalid_regions (di_image_shape v))
                      (Itertools.filterfalse _is_valid_instance g)).
Proof.
  unfold bottomup_group.
  destruct (filter _is_valid_instance g) as [| v vs]; [discriminate |].
  unfold _concat_ndarray, _concat.
  destruct (Np.concatenate (map di_keypoints (v :: vs))) as [kp | e] eqn:Ek;
    cbn [rbind]; [| discriminate].
  destruct (Np.concatenate (map di_keypoints_visible (v :: vs)))
    as [kv | e] eqn:Ev; cbn [rbind]; [| discriminate].
  apply concatenate_ok in Ek, Ev. subst kp kv.
  intro Ha. injection Ha as <-. exists v, vs. cbn [bu_image_id bu_image_file
    bu_image_shape bu_sigmas bu_bbox bu_bbox_score bu_num_keypoints
    bu_keypoints bu_keypoints_visible bu_iscrowd bu_segmentation bu_id
    bu_mask_invalid_rle].
  rewrite rles_fold_regions. repeat (split; [reflexivity |]). reflexivity.
Qed.

(** The loop body returns an aggregate for a group with a valid instance
    whose valid instances have the same number of keypoint slots. *)
Lemma bottomup_group_total (K : nat) (k : Z) (g : list data_info)
      (v : data_info) (vs : list data_info) :
  filter _is_valid_instance g = v :: vs ->
  uniform_K K g ->
  exists a, bottomup_group k g = Ok (Some a).
Proof.
  intros Hf HK. unfold bottomup_group. rewrite Hf.
  assert (HKv : uniform_K K (v :: vs)).
  { unfold uniform_K in *. rewrite Forall_forall in *. intros d Hd.
    apply HK. rewrite <- Hf in Hd. apply filter_In in Hd. tauto. }
  unfold _concat_ndarray.
  rewrite (concatenate_uniform di_keypoints K),
          (concatenate_uniform di_keypoints_visible K).
  - simpl rbind. eexists. reflexivity.
  - eapply Forall_impl; [| exact HKv]. simpl. tauto.
  - eapply Forall_impl; [| exact HKv]. simpl. tauto.
Qed.

(** The aggregate of a group of records with the image id of the group is
    the aggregate record of the specification. *)
Lemma bottomup_group_aggregate (k : Z) (g : list data_info) (a : data_info_bu) :
  Forall (fun d => di_image_id d = k) g ->
  bottomup_group k g = Ok (Some a) ->
  aggregate_of (k, g) a.
Proof.
  intros Hk Ha. apply bottomup_group_some in Ha.
  destruct Ha as (v & vs & Hf & Hid & Hrest).
  exists v, vs. simpl snd. split; [exact Hf |]. split.
  - rewrite Hid. symmetry. rewrite Forall_forall in Hk. apply Hk.
    assert (Hin : In v (filter _is_valid_instance g)) by (rewrite Hf; now left).
    apply filter_In in Hin. tauto.
  - tauto.
Qed.

(** The loop extends the list built so far by one aggregate per group with
    a valid instance, in the order of the groups. *)
Lemma bottomup_loop_spec (gs : list (Z * list data_info)) :
  forall acc out,
    bottomup_loop gs acc = Ok out ->
    exists news,
      out = acc ++ news /\
      Forall2 (fun g a => bottomup_group (fst g) (snd g) = Ok (Some a))
              (filter has_valid gs) news.
Proof.
  induction gs as [| [k g] gs IH]; intros acc out Hout; simpl in Hout.
  - injection Hout as <-. exists []. rewrite app_nil_r. split; constructor.
  - destruct (bottomup_group k g) as [[a |] | e] eqn:Eg; simpl in Hout;
      [| | discriminate].
    + apply IH in Hout. destruct Hout as (news & -> & HF).
      exists (a :: news). rewrite <- app_assoc. split; [reflexivity |].
      simpl filter. destruct (has_valid (k, g)) eqn:Ehv.
      * constructor; [exact Eg | exact HF].
      * apply has_valid_filter in Ehv. simpl in Ehv.
        apply bottomup_group_some in Eg. destruct Eg as (v & vs & Hf & _).
        congruence.
    + apply IH in Hout. destruct Hout as (news & -> & HF).
      exists news. split; [reflexivity |].
      simpl filter. apply bottomup_group_none in Eg.
      destruct (has_valid (k, g)) eqn:Ehv; [| exact HF].
      apply has_valid_true in Ehv. destruct Ehv as (d & Hd & Hv).
      simpl in Hd. assert (Hin : In d (filter _is_valid_instance g))
        by (apply filter_In; tauto).
      rewrite Eg in Hin. destruct Hin.
Qed.

(** The loop returns when every group has a uniform number of keypoint
    slots. *)
Lemma bottomup_loop_total (K : nat) (gs : list (Z * list data_info)) :
  Forall (fun g => uniform_K K (snd g)) gs ->
  forall acc, exists out, bottomup_loop gs acc = Ok out.
Proof.
  induction gs as [| [k g] gs IH]; intros HK acc; simpl.
  - eauto.
  - inversion HK as [| ? ? Hg Hgs]; subst. simpl in Hg.
    destruct (filter _is_valid_instance g) as [| v vs] eqn:Ef.
    + rewrite (bottomup_group_skip k g Ef). simpl. apply IH. exact Hgs.
    + destruct (bottomup_group_total K k g v vs Ef Hg) as [a Ha].
      rewrite Ha. simpl. apply IH. exact Hgs.
Qed.

Lemma groupby_uniform (K : nat) (l : list data_info) :
  uniform_K K l ->
  Forall (fun g => uniform_K K (snd g)) (Itertools.groupby di_image_id l).
Proof.
  intro HK. apply Forall_forall. intros [k g] Hin.
  unfold uniform_K in *. rewrite Forall_forall in *. intros d Hd. apply HK.
  rewrite <- (groupby_concat di_image_id l). apply in_concat.
  exists g. split; [| exact Hd].
  apply in_map_iff. exists (k, g). split; [reflexivity | exact Hin].
Qed.

(** The bottom-up organisation returns on records with a uniform number of
    keypoint slots, with one aggregate per group that has a valid
    instance. *)
Lemma get_bottomup_total (K : nat) (l : list data_info) :
  uniform_K K l ->
  exists aggs,
    _get_bottomup_data_infos l = Ok aggs /\
    Forall2 (fun g a => bottomup_group (fst g) (snd g) = Ok (Some a))
            (filter has_valid (Itertools.groupby di_image_id l)) aggs.
Proof.
  intro HK. unfold _get_bottomup_data_infos.
  destruct (bottomup_loop_total K _ (groupby_uniform K l HK) []) as [out Hout].
  exists out. split; [exact Hout |].
  apply bottomup_loop_spec in Hout. destruct Hout as (news & -> & HF).
  exact HF.
Qed.

End Bottomup.

(** ** Claims on the validity predicate and the two organisations *)

Lemma Forall2_Forall_l {A B} (P : A -> Prop) (R S : A -> B -> Prop)
      (l1 : list A) (l2 : list B) :
  (forall x y, P x -> R x y -> S x y) ->
  Forall P l1 -> Forall2 R l1 l2 -> Forall2 S l1 l2.
Proof.
  intros HS HP HR. induction HR as [| x y l1 l2 Hxy HR IH]; constructor.
  - apply HS; [now inversion HP | exact Hxy].
  - apply IH. now inversion HP.
Qed.

Lemma Forall2_map_eq {A B C} (f : B -> C) (h : A -> C) (l1 : list A)
      (l2 : list B) :
  Forall2 (fun x y => f y = h x) l1 l2 -> map f l2 = map h l1.
Proof.
  induction 1 as [| x y l1 l2 Hxy HR IH]; simpl; congruence.
Qed.

Lemma Forall_filter {A} (P : A -> Prop) (f : A -> bool) (l : list A) :
  Forall P l -> Forall P (filter f l).
Proof.
  rewrite !Forall_forall. intros HP x Hx. apply HP.
  apply filter_In in Hx. tauto.
Qed.

Lemma NoDup_map_filter {A B} (proj : A -> B) (keep : A -> bool) :
  forall xs : list A,
    NoDup (map proj xs) -> NoDup (map proj (filter keep xs)).
Proof.
  intro xs. induction xs as [| x xs IH]; simpl; [trivial |]. intro Hnd.
  inversion Hnd as [| ? ? Hx Hxs]; subst.
  destruct (keep x); [| now apply IH].
  simpl. constructor; [| now apply IH].
  intro Hin. apply Hx. apply in_map_iff in Hin.
  destruct Hin as (y & Hy & Hin). apply in_map_iff. exists y.
  apply filter_In in Hin. tauto.
Qed.

(** The valid instances of the groups with a valid instance are the valid
    instances of all groups. *)
Lemma concat_valid_groups {B} (f : data_info -> B)
      (gs : list (Z * list data_info)) :
  List.concat
    (map (fun g => map f (filter _is_valid_instance (snd g)))
         (filter has_valid gs)) =
  map f (filter _is_valid_instance (List.concat (map snd gs))).
Proof.
  induction gs as [| g gs IH]; simpl; [reflexivity |].
  rewrite filter_app, map_app, <- IH.
  destruct (has_valid g) eqn:Ehv; [reflexivity |].
  apply has_valid_filter in Ehv. rewrite Ehv. reflexivity.
Qed.

(** C1.  A record is invalid exactly when its [iscrowd] flag is truthy, or
    its [num_keypoints] is 0, or its box width is at most 0, or its box height
    is at most 0.  The top-down organisation keeps the records that satisfy
    this predicate; the bottom-up organisation partitions each group with it:
    the instances of an aggregate are the valid records of the group, its
    mask is built from the invalid ones, and over all aggregates the instances
    are those of the top-down organisation. *)
Theorem validity_predicate `{MaskLibrary} (d : data_info) (l : list data_info) :
  (_is_valid_instance d = false <->
   (di_iscrowd d <> 0%Z \/ di_num_keypoints d = 0%Z \/
    bbox_w (di_bbox d) <= 0 \/ bbox_h (di_bbox d) <= 0)) /\
  _get_topdown_data_infos l = filter _is_valid_instance l /\
  (forall aggs,
      _get_bottomup_data_infos l = Ok aggs ->
      Forall2
        (fun g a =>
           bu_id a = map di_id (filter _is_valid_instance (snd g)) /\
           bu_mask_invalid_rle a =
             merge (flat_map (invalid_regions (bu_image_shape a))
                             (filter (fun x => negb (_is_valid_instance x))
                                     (snd g))))
        (filter has_valid (Itertools.groupby di_image_id l)) aggs /\
      List.concat (map bu_id aggs) = map di_id (_get_topdown_data_infos l)).
Proof.
  split; [| split].
  - rewrite is_valid_instance_false, truthy_true. reflexivity.
  - reflexivity.
  - intros aggs Hb. unfold _get_bottomup_data_infos in Hb.
    apply bottomup_loop_spec in Hb. destruct Hb as (news & -> & HF).
    simpl app.
    assert (HF' : Forall2
              (fun g a =>
                 bu_id a = map di_id (filter _is_valid_instance (snd g)) /\
                 bu_mask_invalid_rle a =
                   merge (flat_map (invalid_regions (bu_image_shape a))
                                   (filter (fun x => negb (_is_valid_instance x))
                                           (snd g))))
              (filter has_valid (Itertools.groupby di_image_id l)) news).
    { eapply Forall2_impl; [| exact HF]. intros [k g] a Ha. simpl in *.
      apply bottomup_group_some in Ha.
      destruct Ha as (v & vs & Hf & _ & _ & Hs & _ & _ & _ & _ & _ & _ & _ & _
                      & Hid & Hm).
      rewrite Hf, Hs. split; assumption. }
    split; [exact HF' |].
    unfold _get_topdown_data_infos.
    rewrite <- (groupby_concat di_image_id l) at 1.
    rewrite <- concat_valid_groups. f_equal.
    apply Forall2_map_eq. eapply Forall2_impl; [| exact HF'].
    simpl. tauto.
Qed.

Lemma validity_predicate_witness :
  exists aggs,
    _get_bottomup_data_infos Ex.records = Ok aggs /\
    List.concat (map bu_id aggs) =
    map di_id (_get_topdown_data_infos Ex.records).
Proof.
  eexists. split; [reflexivity |].
  apply (proj2 (proj2 (validity_predicate (Ex.valid_record 1 1) Ex.records))).
  reflexivity.
Defined.

(** The image ids of the aggregates are the keys of the groups with a valid
    instance. *)
Lemma aggregate_image_ids `{MaskLibrary} (gs : list (Z * list data_info))
      (aggs : list data_info_bu) :
  Forall2 (fun g a => bottomup_group (fst g) (snd g) = Ok (Some a))
          (filter has_valid gs) aggs ->
  map bu_image_id aggs = map fst (filter has_valid gs).
Proof.
  intro HF. apply Forall2_map_eq. eapply Forall2_impl; [| exact HF].
  intros [k g] a Ha. simpl in *. apply bottomup_group_some in Ha.
  destruct Ha as (v & vs & _ & Hid & _). exact Hid.
Qed.

(** An image id is the key of a group with a valid instance exactly when a
    valid record carries it. *)
Lemma valid_group_keys (l : list data_info) (i : Z) :
  In i (map fst (filter has_valid (Itertools.groupby di_image_id l))) <->
  exists d, In d l /\ di_image_id d = i /\ _is_valid_instance d = true.
Proof.
  pose proof (groupby_groups di_image_id l) as Hg.
  rewrite Forall_forall in Hg. split.
  - intro Hin. apply in_map_iff in Hin. destruct Hin as ([k g] & Hk & Hin).
    simpl in Hk. subst k. apply filter_In in Hin. destruct Hin as [Hin Hv].
    apply has_valid_true in Hv. destruct Hv as (d & Hd & Hv). simpl in Hd.
    exists d. split; [| split; [| exact Hv]].
    + rewrite <- (groupby_concat di_image_id l). apply in_concat.
      exists g. split; [| exact Hd]. apply in_map_iff. now exists (i, g).
    + destruct (Hg _ Hin) as [_ Hk]. rewrite Forall_forall in Hk.
      apply (Hk d Hd).
  - intros (d & Hd & Hi & Hv).
    rewrite <- (groupby_concat di_image_id l) in Hd. apply in_concat in Hd.
    destruct Hd as (g' & Hg' & Hd). apply in_map_iff in Hg'.
    destruct Hg' as ([k g] & Hs & Hin). simpl in Hs. subst g'.
    apply in_map_iff. exists (k, g). split.
    + destruct (Hg _ Hin) as [_ Hk]. rewrite Forall_forall in Hk.
      simpl in *. rewrite <- (Hk d Hd). exact Hi.
    + apply filter_In. split; [exact Hin |]. apply has_valid_true.
      exists d. split; assumption.
Qed.

(** C3 (amended).  On records with a uniform number of keypoint slots the
    bottom-up organisation returns one aggregate per maximal run of
    consecutive records with the same image id that has a valid instance; an
    image id occurs among the aggregates exactly when one of its records is
    valid, so an image whose records are all invalid has no aggregate; and
    when the records of each image are consecutive, there is exactly one
    aggregate per distinct image id with a valid instance. *)
Theorem bottomup_one_aggregate_per_image `{MaskLibrary} (K : nat)
        (l : list data_info) :
  uniform_K K l ->
  exists aggs,
    _get_bottomup_data_infos l = Ok aggs /\
    map bu_image_id aggs =
      map fst (filter has_valid (Itertools.groupby di_image_id l)) /\
    (forall i,
        In i (map bu_image_id aggs) <->
        exists d, In d l /\ di_image_id d = i /\ _is_valid_instance d = true) /\
    (forall i,
        (forall d, In d l -> di_image_id d = i -> _is_valid_instance d = false) ->
        ~ In i (map bu_image_id aggs)) /\
    (contiguous_by di_image_id l ->
     NoDup (map bu_image_id aggs) /\
     List.length aggs =
       List.length
         (nodup Z.eq_dec (map di_image_id (filter _is_valid_instance l)))).
Proof.
  intro HK. destruct (get_bottomup_total K l HK) as (aggs & Hb & HF).
  exists aggs. split; [exact Hb |].
  pose proof (aggregate_image_ids _ _ HF) as Hids.
  split; [exact Hids |].
  assert (Hmem : forall i,
             In i (map bu_image_id aggs) <->
             exists d, In d l /\ di_image_id d = i /\
                       _is_valid_instance d = true).
  { intro i. rewrite Hids. apply valid_group_keys. }
  split; [exact Hmem |]. split.
  - intros i Hall Hin. apply Hmem in Hin. destruct Hin as (d & Hd & Hi & Hv).
    rewrite (Hall d Hd Hi) in Hv. discriminate.
  - intro Hc.
    assert (Hnd : NoDup (map bu_image_id aggs)).
    { rewrite Hids. apply NoDup_map_filter. apply groupby_keys_NoDup.
      exact Hc. }
    split; [exact Hnd |].
    rewrite <- (length_map bu_image_id aggs).
    apply Permutation_length. apply NoDup_Permutation.
    + exact Hnd.
    + apply NoDup_nodup.
    + intro i. rewrite nodup_In, Hmem, in_map_iff. split.
      * intros (d & Hd & Hi & Hv). exists d. split; [exact Hi |].
        apply filter_In. tauto.
      * intros (d & Hi & Hd). apply filter_In in Hd. exists d. tauto.
Qed.

Lemma uniform_K_records : uniform_K 2 Ex.records.
Proof. repeat constructor. Qed.

Lemma contiguous_records : contiguous_by di_image_id Ex.records.
Proof.
  simpl. repeat split; try (left; reflexivity);
    right; simpl; intros Hin; decompose [or] Hin; discriminate || contradiction.
Qed.

Lemma bottomup_one_aggregate_per_image_witness :
  uniform_K 2 Ex.records /\
  contiguous_by di_image_id Ex.records /\
  exists aggs,
    _get_bottomup_data_infos Ex.records = Ok aggs /\
    List.length aggs = 2%nat /\
    List.length aggs =
      List.length
        (nodup Z.eq_dec
               (map di_image_id (filter _is_valid_instance Ex.records))).
Proof.
  split; [exact uniform_K_records |]. split; [exact contiguous_records |].
  destruct (bottomup_one_aggregate_per_image 2 Ex.records uniform_K_records)
    as (aggs & Hb & _ & _ & _ & Hc).
  exists aggs. split; [exact Hb |].
  split; [| exact (proj2 (Hc contiguous_records))].
  vm_compute in Hb. injection Hb as <-. reflexivity.
Defined.

(** On the records of image 1, image 2 and image 1 again, all valid, three
    aggregates are returned although only two distinct image ids have a valid
    instance. *)
Lemma bottomup_interleaved_images :
  exists aggs,
    _get_bottomup_data_infos Ex.interleaved = Ok aggs /\
    map bu_image_id aggs = [1; 2; 1]%Z /\
    List.length aggs = 3%nat /\
    List.length
      (nodup Z.eq_dec
             (map di_image_id (filter _is_valid_instance Ex.interleaved))) =
    2%nat.
Proof.
  eexists. split; [reflexivity |]. repeat split; reflexivity.
Qed.

(** C4.  On records with a uniform number of keypoint slots the bottom-up
    organisation returns, for every group with [N >= 1] valid instances, an
    aggregate whose [image_id], [image_file], [image_shape] and [sigmas] are
    those of the first valid instance of the group and whose other fields
    list the field of the valid instances in their order, each with [N]
    entries. *)
Theorem bottomup_aggregate_fields `{MaskLibrary} (K : nat) (l : list data_info) :
  uniform_K K l ->
  exists aggs,
    _get_bottomup_data_infos l = Ok aggs /\
    Forall2
      (fun g a =>
         aggregate_of g a /\
         let N := List.length (filter _is_valid_instance (snd g)) in
         (1 <= N)%nat /\
         List.length (bu_bbox a) = N /\
         List.length (bu_bbox_score a) = N /\
         List.length (bu_num_keypoints a) = N /\
         List.length (bu_keypoints a) = N /\
         List.length (bu_keypoints_visible a) = N /\
         List.length (bu_iscrowd a) = N /\
         List.length (bu_segmentation a) = N /\
         List.length (bu_id a) = N)
      (filter has_valid (Itertools.groupby di_image_id l)) aggs.
Proof.
  intro HK. destruct (get_bottomup_total K l HK) as (aggs & Hb & HF).
  exists aggs. split; [exact Hb |].
  eapply Forall2_Forall_l;
    [| apply Forall_filter; apply (groupby_groups di_image_id l) | exact HF].
  intros [k g] a [_ Hk] Ha. simpl in Hk, Ha.
  pose proof (bottomup_group_aggregate k g a Hk Ha) as Hagg.
  split; [exact Hagg |].
  destruct Hagg as (v & vs & Hf & _ & _ & _ & _ & H1 & H2 & H3 & H4 & H5 & H6
                    & H7 & H8).
  simpl snd in *. rewrite Hf, H1, H2, H3, H4, H5, H6, H7, H8.
  cbv zeta. rewrite !length_map. simpl. repeat split; lia.
Qed.

Lemma bottomup_aggregate_fields_witness :
  uniform_K 2 Ex.records /\
  exists aggs,
    _get_bottomup_data_infos Ex.records = Ok aggs /\
    Forall2
      (fun g a =>
         aggregate_of g a /\
         let N := List.length (filter _is_valid_instance (snd g)) in
         (1 <= N)%nat /\
         List.length (bu_bbox a) = N /\
         List.length (bu_bbox_score a) = N /\
         List.length (bu_num_keypoints a) = N /\
         List.length (bu_keypoints a) = N /\
         List.length (bu_keypoints_visible a) = N /\
         List.length (bu_iscrowd a) = N /\
         List.length (bu_segmentation a) = N /\
         List.length (bu_id a) = N)
      (filter has_valid (Itertools.groupby di_image_id Ex.records)) aggs.
Proof.
  split; [exact uniform_K_records |].
  exact (bottomup_aggregate_fields 2 Ex.records uniform_K_records).
Defined.

(** The first aggregate of the example records: two valid instances of
    image 1, in their order. *)
Example bottomup_records_ids :
  exists aggs,
    _get_bottomup_data_infos Ex.records = Ok aggs /\
    map bu_id aggs = [[1; 4]; [6]]%Z /\
    map bu_image_id aggs = [1; 2]%Z.
Proof. eexists. split; [reflexivity |]. split; reflexivity. Qed.

Lemma flat_map_nil {A B} (f : A -> list B) (l : list A) :
  (forall x, In x l -> f x = []) -> flat_map f l = [].
Proof.
  induction l as [| x l IH]; intro Hnil; simpl; [reflexivity |].
  rewrite (Hnil x) by now left. simpl. apply IH.
  intros y Hy. apply Hnil. now right.
Qed.

(** C5.  On records with a uniform number of keypoint slots, the
    [mask_invalid_rle] of every aggregate is the merge of the regions of the
    invalid instances of its group, taken in order: nothing for an instance
    without segmentation, one mask for a crowd object, all parts for a
    non-crowd object with zero keypoints, nothing for an instance that is
    neither; when no instance contributes, it is the merge of the empty
    list. *)
Theorem bottomup_mask_invalid `{MaskLibrary} (K : nat) (l : list data_info) :
  uniform_K K l ->
  exists aggs,
    _get_bottomup_data_infos l = Ok aggs /\
    Forall2
      (fun g a =>
         let invalid := Itertools.filterfalse _is_valid_instance (snd g) in
         bu_mask_invalid_rle a =
           merge (flat_map (invalid_regions (bu_image_shape a)) invalid) /\
         ((forall d, In d invalid ->
                     invalid_regions (bu_image_shape a) d = []) ->
          bu_mask_invalid_rle a = merge []))
      (filter has_valid (Itertools.groupby di_image_id l)) aggs /\
    (forall shape d,
        seg_truthy (di_segmentation d) = false ->
        invalid_regions shape d = []) /\
    (forall shape d seg,
        di_segmentation d = Some seg ->
        seg_truthy (Some seg) = true ->
        di_iscrowd d <> 0%Z ->
        invalid_regions shape d =
          [frPyObjects seg (fst (fst shape)) (snd (fst shape))]) /\
    (forall shape d seg,
        di_segmentation d = Some seg ->
        seg_truthy (Some seg) = true ->
        di_iscrowd d = 0%Z ->
        di_num_keypoints d = 0%Z ->
        invalid_regions shape d =
          py_iter (frPyObjects seg (fst (fst shape)) (snd (fst shape)))) /\
    (forall shape d,
        di_iscrowd d = 0%Z ->
        di_num_keypoints d <> 0%Z ->
        invalid_regions shape d = []).
Proof.
  intro HK. destruct (get_bottomup_total K l HK) as (aggs & Hb & HF).
  exists aggs. split; [exact Hb |].
  split; [| split; [| split; [| split]]].
  - eapply Forall2_impl; [| exact HF]. intros [k g] a Ha. simpl in *.
    apply bottomup_group_some in Ha.
    destruct Ha as (v & vs & _ & _ & _ & Hs & _ & _ & _ & _ & _ & _ & _ & _
                    & _ & Hm).
    rewrite Hs. split; [exact Hm |]. intro Hnone. rewrite Hm. f_equal.
    apply flat_map_nil. exact Hnone.
  - intros shape d Hs. unfold invalid_regions.
    destruct (di_segmentation d) as [seg |]; [| reflexivity].
    rewrite Hs. reflexivity.
  - intros shape d seg Hs Ht Hc. unfold invalid_regions. rewrite Hs, Ht.
    apply truthy_true in Hc. rewrite Hc. reflexivity.
  - intros shape d seg Hs Ht Hc Hn. unfold invalid_regions.
    rewrite Hs, Ht, Hc, Hn. reflexivity.
  - intros shape d Hc Hn. unfold invalid_regions.
    destruct (di_segmentation d) as [seg |]; [| reflexivity].
    destruct (seg_truthy (Some seg)); [| reflexivity].
    rewrite Hc. apply Z.eqb_neq in Hn. rewrite Hn. reflexivity.
Qed.

Lemma bottomup_mask_invalid_witness :
  uniform_K 2 Ex.records /\
  exists aggs,
    _get_bottomup_data_infos Ex.records = Ok aggs /\
    Forall2
      (fun g a =>
         bu_mask_invalid_rle a =
           merge (flat_map (invalid_regions (bu_image_shape a))
                           (Itertools.filterfalse _is_valid_instance (snd g))))
      (filter has_valid (Itertools.groupby di_image_id Ex.records)) aggs.
Proof.
  split; [exact uniform_K_records |].
  destruct (bottomup_mask_invalid 2 Ex.records uniform_K_records)
    as (aggs & Hb & HF & _).
  exists aggs. split; [exact Hb |].
  eapply Forall2_impl; [| exact HF]. intros g a Hga. exact (proj1 Hga).
Defined.

(** Scenario: an image with a valid instance, a crowd object with a region
    and a non-crowd object without keypoints whose region has two parts has a
    mask merged from three regions; an image whose only invalid instance has
    a degenerate box has a mask merged from no region. *)
Example bottomup_records_masks :
  exists aggs,
    _get_bottomup_data_infos Ex.records = Ok aggs /\
    map (fun a => List.length (bu_mask_invalid_rle a)) aggs = [3; 0]%nat.
Proof. eexists. split; [reflexivity |]. reflexivity. Qed.

(** ** The detection adapter *)

Lemma reshape_1_4_ok (l : list Q) :
  (4 <= List.length l)%nat ->
  exists row, Np.reshape_1_4 l = Ok row /\ bbox_values row = firstn 4 l.
Proof.
  intro Hl. unfold Np.reshape_1_4.
  destruct l as [| a [| b [| c [| d l']]]]; simpl in Hl; try lia.
  exists (a, b, c, d). split; reflexivity.
Qed.

Lemma det_loop_spec `{MaskLibrary} (self : CocoDataset) (coco : coco_index)
      (det_results : list det) :
  (forall det, In det (humans det_results) ->
               (4 <= List.length (det_bbox det))%nat /\
               exists img, loadImgs coco (det_image_id det) = Ok img) ->
  forall data_list id_,
  exists news,
    det_loop self coco (meta_num_keypoints (metainfo self)) det_results
             data_list id_ = Ok (data_list ++ news) /\
    List.length news = List.length (humans det_results) /\
    forall i det,
      nth_error (humans det_results) i = Some det ->
      exists r, nth_error news i = Some r /\
                adapter_record self coco det (id_ + Z.of_nat i) r.
Proof.
  induction det_results as [| det rest IH]; intros Hwf data_list id_.
  - exists []. rewrite app_nil_r. split; [reflexivity |].
    split; [reflexivity |]. intros [| i] det0 Hn; discriminate.
  - simpl det_loop. unfold humans in *. simpl filter in *.
    destruct (Z.eqb (det_category_id det) 1) eqn:Ec; simpl negb; cbv iota.
    + destruct (Hwf det (or_introl eq_refl)) as [Hlen [img Himg]].
      destruct (reshape_1_4_ok _ Hlen) as (row & Hrow & Hvals).
      rewrite Himg, Hrow. cbn [rbind].
      match goal with
      | |- context [det_loop _ _ _ rest (data_list ++ [?r0]) _] => set (r := r0)
      end.
      destruct (IH (fun d Hd => Hwf d (or_intror Hd)) (data_list ++ [r])
                   (id_ + 1)%Z) as (news & Hloop & Hlen' & Hnth).
      exists (r :: news). rewrite Hloop, <- app_assoc.
      split; [reflexivity |]. split; [simpl; now rewrite Hlen' |].
      intros [| i] det0 Hn; simpl in Hn.
      * injection Hn as <-. exists r. split; [reflexivity |].
        exists img. subst r. simpl. rewrite Z.add_0_r.
        repeat (split; [first [reflexivity | assumption] |]). reflexivity.
      * destruct (Hnth i det0 Hn) as (r' & Hr' & Hrec).
        exists r'. split; [exact Hr' |].
        replace (id_ + Z.of_nat (S i))%Z with (id_ + 1 + Z.of_nat i)%Z by lia.
        exact Hrec.
    + apply IH. exact Hwf.
Qed.

(** C6.  When the annotation file and the detection file exist and every
    detection of category 1 has at least 4 box values and a known image,
    [_load_detection_results] returns one record per detection of category 1,
    in input order, and skips the others; the box of the [i]-th record is the
    first 4 values of its detection, unclipped, its score is the detection
    score, its keypoints are [K] zero pairs, its visibilities are [K] ones
    and its [id] is [i], counted from 0. *)
Theorem load_detection_results_spec `{MaskLibrary} (w : World)
        (self : CocoDataset) (bbox_path : string) (coco : coco_index)
        (det_results : list det) :
  bbox_file self = Some bbox_path ->
  w (ann_file self) = Some (CocoFile coco) ->
  w bbox_path = Some (DetFile det_results) ->
  (forall det, In det (humans det_results) ->
               (4 <= List.length (det_bbox det))%nat /\
               exists img, loadImgs coco (det_image_id det) = Ok img) ->
  exists l,
    _load_detection_results w self =
      ([EvRead bbox_path; EvRead (ann_file self)], Ok l) /\
    List.length l = List.length (humans det_results) /\
    (forall i det,
        nth_error (humans det_results) i = Some det ->
        exists r, nth_error l i = Some r /\
                  adapter_record self coco det (Z.of_nat i) r) /\
    map dt_id l = map Z.of_nat (seq 0 (List.length l)).
Proof.
  intros Hb Ha Hd Hwf.
  destruct (det_loop_spec self coco det_results Hwf [] 0%Z)
    as (l & Hloop & Hlen & Hnth).
  simpl app in Hloop. exists l.
  split; [| split; [exact Hlen | split; [exact Hnth |]]].
  - unfold _load_detection_results, check_file_exist, load, COCO.
    rewrite Hb, Ha, Hd. simpl. rewrite Hloop. reflexivity.
  - apply nth_error_ext. intro i.
    rewrite !nth_error_map.
    destruct (nth_error (humans det_results) i) as [det |] eqn:En.
    + destruct (Hnth i det En) as (r & Hr & Hrec). rewrite Hr. simpl.
      assert (Hi : (i < List.length l)%nat).
      { apply nth_error_Some. congruence. }
      rewrite nth_error_seq. 
      destruct (Nat.ltb_spec i (List.length l)); [| lia]. simpl.
      destruct Hrec as (img & _ & _ & _ & _ & _ & _ & _ & _ & Hid).
      now rewrite Hid.
    + apply nth_error_None in En. rewrite <- Hlen in En.
      rewrite (proj2 (nth_error_None l i)) by exact En.
      rewrite (proj2 (nth_error_None (seq 0 (List.length l)) i))
        by (rewrite length_seq; exact En).
      reflexivity.
Qed.

Lemma load_detection_results_spec_witness :
  exists l,
    _load_detection_results Ex.world Ex.with_detections =
      ([EvRead "dets.json"; EvRead (ann_file Ex.with_detections)], Ok l) /\
    List.length l = List.length (humans Ex.dets) /\
    (forall i det,
        nth_error (humans Ex.dets) i = Some det ->
        exists r, nth_error l i = Some r /\
                  adapter_record Ex.with_detections Ex.coco det (Z.of_nat i) r) /\
    map dt_id l = map Z.of_nat (seq 0 (List.length l)).
Proof.
  apply (load_detection_results_spec Ex.world Ex.with_detections "dets.json"
                                     Ex.coco Ex.dets);
    try reflexivity.
  intros det Hin. simpl in Hin.
  destruct Hin as [<- | [<- | []]]; (split; [simpl; lia |]);
    eexists; reflexivity.
Defined.

(** Scenario: of the detections of categories 1, 2 and 1, the first and the
    third are emitted with ids 0 and 1; the boxes are the first four values,
    also where they leave the image. *)
Example load_detection_results_example :
  exists l,
    _load_detection_results Ex.world Ex.with_detections =
      ([EvRead "dets.json"; EvRead "ann.json"], Ok l) /\
    map dt_id l = [0; 1]%Z /\
    map dt_bbox l = [(-5, 20, 3000, 40); (7, 8, 9, 10)] /\
    map dt_keypoints l = [[(0, 0); (0, 0)]; [(0, 0); (0, 0)]] /\
    map dt_keypoints_visible l = [[1; 1]; [1; 1]].
Proof. eexists. split; [reflexivity |]. repeat split; reflexivity. Qed.

(** ** The score filter *)

(** Values of the single precision rounding. *)
Example float32_values :
  (exists y, Np.float32 0.7 = Np.Fin y /\ y == 11744051 # 16777216) /\
  (exists y, Np.float32 0.1 = Np.Fin y /\ y == 13421773 # 134217728) /\
  (exists y, Np.float32 1.00000001 = Np.Fin y /\ y == 1) /\
  (exists y, Np.float32 16777217 = Np.Fin y /\ y == 16777216) /\
  (exists y, Np.float32 (-(1 # 3)) = Np.Fin y /\ y == - (11184811 # 33554432)) /\
  (exists y, Np.float32 ((3 # 2) * 2 ^ (-149)) = Np.Fin y /\ y == 2 * 2 ^ (-149)) /\
  Np.float32 (2 ^ 128 - 2 ^ 103) = Np.Inf false /\
  single_precision 0.5 /\ single_precision 1.
Proof.
  repeat split; try (eexists; split; [vm_compute; reflexivity |]);
    vm_compute; reflexivity.
Qed.

Lemma filterfalse_list_instances `{MaskLibrary} (thr : Q) (l : list sample) :
  Forall instance_level l ->
  filterfalse_list (bbox_score_below thr) l =
  Ok (filter (fun s => negb (Np.lt32 (sample_score s) thr)) l).
Proof.
  induction 1 as [| s l Hs Hl IH]; simpl; [reflexivity |].
  rewrite IH.
  destruct s as [d | d | a]; simpl in *; try contradiction;
    destruct (Np.lt32 _ thr); reflexivity.
Qed.

(** Between single precision values the comparison is the exact one. *)
Lemma lt32_single_precision (a thr : Q) :
  single_precision a -> single_precision thr ->
  (Np.lt32 a thr = false <-> thr <= a).
Proof.
  unfold single_precision, Np.lt32.
  destruct (Np.float32 a) as [a' |]; [| contradiction].
  destruct (Np.float32 thr) as [t' |]; [| contradiction].
  intros Ha Ht. simpl. unfold Np.lt. rewrite negb_false_iff, Qle_bool_iff.
  rewrite Ha, Ht. reflexivity.
Qed.

(** C7 (amended).  [filter_data] returns the record list unchanged when no
    filter or no score threshold is configured; with a threshold [thr], in
    top-down mode, it returns, in their order, the records whose score is not
    below [thr] in the single precision comparison of numpy: a record
    survives exactly when its score rounded to single precision is at least
    [thr] rounded to single precision, which for single precision values of
    score and threshold means [thr <= score]. *)
Theorem filter_data_spec `{MaskLibrary} (self : CocoDataset) :
  (filter_cfg self = None -> filter_data self = Ok (data_list self)) /\
  (forall cfg,
      filter_cfg self = Some cfg -> bbox_score_thr cfg = None ->
      filter_data self = Ok (data_list self)) /\
  (forall cfg thr,
      filter_cfg self = Some cfg -> bbox_score_thr cfg = Some thr ->
      data_mode self = "topdown"%string ->
      Forall instance_level (data_list self) ->
      filter_data self =
        Ok (filter (fun s => negb (Np.lt32 (sample_score s) thr))
                   (data_list self)) /\
      (forall s,
          In s (filter (fun s => negb (Np.lt32 (sample_score s) thr))
                       (data_list self))
          <-> In s (data_list self) /\
              Np.f32_lt (Np.float32 (sample_score s)) (Np.float32 thr) = false) /\
      (forall s,
          single_precision (sample_score s) -> single_precision thr ->
          (In s (filter (fun s => negb (Np.lt32 (sample_score s) thr))
                        (data_list self))
           <-> In s (data_list self) /\ thr <= sample_score s))).
Proof.
  unfold filter_data. split; [| split].
  - intros ->. reflexivity.
  - intros cfg -> ->. reflexivity.
  - intros cfg thr -> -> -> Hl. simpl. split; [| split].
    + apply filterfalse_list_instances. exact Hl.
    + intro s. rewrite filter_In, negb_true_iff. reflexivity.
    + intros s Hs Ht. rewrite filter_In, negb_true_iff.
      rewrite (lt32_single_precision _ _ Hs Ht). reflexivity.
Qed.

Lemma filter_data_spec_witness :
  filter_data Ex.scored =
  Ok (filter (fun s => negb (Np.lt32 (sample_score s) 0.5))
             (data_list Ex.scored)).
Proof.
  assert (Hl : Forall instance_level (data_list Ex.scored))
    by (repeat constructor).
  exact (proj1 (proj2 (proj2 (filter_data_spec Ex.scored))
                      {| bbox_score_thr := Some 0.5 |} 0.5
                      eq_refl eq_refl eq_refl Hl)).
Defined.

(** Scenario: scores 0.9, 0.4, 0.6 and threshold 0.5 leave the records with
    scores 0.9 and 0.6, in this order. *)
Example filter_data_example :
  exists l,
    filter_data Ex.scored = Ok l /\ map sample_score l = [0.9; 0.6].
Proof. eexists. split; vm_compute; reflexivity. Qed.

(** A record with score 1 survives the threshold 1.00000001, which is 1 in
    single precision, although its score is below the threshold. *)
Lemma filter_keeps_score_below_threshold :
  filter_data Ex2.near_one = Ok (data_list Ex2.near_one) /\
  data_list Ex2.near_one = [Instance (Ex.valid_record 1 1)] /\
  sample_score (Instance (Ex.valid_record 1 1)) < 1.00000001 /\
  ~ (1.00000001 <= sample_score (Instance (Ex.valid_record 1 1))).
Proof.
  split; [vm_compute; reflexivity |]. split; [reflexivity |].
  split; [reflexivity |]. intro Hle. vm_compute in Hle. apply Hle. reflexivity.
Qed.

(** ** Configuration errors *)

Lemma set_data_list_fields `{MaskLibrary} (self : CocoDataset) (l : list sample) :
  filter_cfg (set_data_list self l) = filter_cfg self /\
  data_mode (set_data_list self l) = data_mode self /\
  bbox_file_set (set_data_list self l) = bbox_file_set self /\
  lazy_init (set_data_list self l) = lazy_init self /\
  ann_file (set_data_list self l) = ann_file self.
Proof. repeat split. Qed.

(** With a score threshold outside top-down mode the filter raises. *)
Lemma filter_data_not_topdown `{MaskLibrary} (self : CocoDataset)
      (cfg : filter_cfg_t) (thr : Q) :
  filter_cfg self = Some cfg -> bbox_score_thr cfg = Some thr ->
  data_mode self <> "topdown"%string ->
  filter_data self = Raise ValueError.
Proof.
  intros Hc Ht Hm. unfold filter_data. rewrite Hc, Ht.
  apply String.eqb_neq in Hm. rewrite Hm. reflexivity.
Qed.

(** The reads of the annotation loader. *)
Lemma load_annotations_trace `{MaskLibrary} (w : World) (self : CocoDataset) :
  (w (ann_file self) = None /\
   _load_annotations w self = ([], Raise FileNotFoundError)) \/
  (w (ann_file self) <> None /\
   exists r, _load_annotations w self = ([EvRead (ann_file self)], r)).
Proof.
  unfold _load_annotations, check_file_exist, COCO.
  destruct (w (ann_file self)) as [[coco | ds] |].
  - right. split; [discriminate |]. simpl. eauto.
  - right. split; [discriminate |]. simpl. eauto.
  - left. split; reflexivity.
Qed.

(** C8 (amended).  An invalid [data_mode], a [bbox_file] outside top-down
    mode and a [bbox_file] without test mode make the constructor raise
    before any file is read.  A score threshold outside top-down mode makes
    [filter_data] raise; with such a configuration and no [bbox_file] the
    constructor fails when it loads the data, after the annotation file has
    been read if it exists, and succeeds under [lazy_init]. *)
Theorem configuration_errors `{MaskLibrary} (w : World) (args : CocoDataset) :
  ((data_mode args <> "topdown"%string /\ data_mode args <> "bottomup"%string) \/
   (bbox_file_set args = true /\ data_mode args <> "topdown"%string) \/
   (bbox_file_set args = true /\ test_mode args = false) ->
   __init__ w args = ([], Raise ValueError)) /\
  (forall cfg thr,
      filter_cfg args = Some cfg -> bbox_score_thr cfg = Some thr ->
      data_mode args <> "topdown"%string ->
      filter_data args = Raise ValueError /\
      (data_mode args = "bottomup"%string -> bbox_file_set args = false ->
       (lazy_init args = true ->
        __init__ w args = ([], Ok (set_data_list args []))) /\
       (lazy_init args = false ->
        exists t e,
          __init__ w args = (t, Raise e) /\
          (w (ann_file args) <> None -> t = [EvRead (ann_file args)])))).
Proof.
  split.
  - unfold __init__. intros [[Ht Hb] | [[Hf Ht] | [Hf Ht]]].
    + apply String.eqb_neq in Ht, Hb. rewrite Ht, Hb. reflexivity.
    + apply String.eqb_neq in Ht. rewrite Ht, Hf. simpl.
      destruct (String.eqb (data_mode args) "bottomup"); reflexivity.
    + rewrite Hf, Ht. simpl.
      destruct (String.eqb (data_mode args) "topdown");
        destruct (String.eqb (data_mode args) "bottomup"); reflexivity.
  - intros cfg thr Hc Hthr Hm.
    split; [exact (filter_data_not_topdown args cfg thr Hc Hthr Hm) |].
    intros Hb Hf. unfold __init__, super_init.
    rewrite Hb, Hf. simpl. split; intros ->; [reflexivity |].
    set (self := set_data_list args []).
    assert (Hb' : data_mode self = "bottomup"%string) by exact Hb.
    assert (Hf' : bbox_file_set self = false) by exact Hf.
    assert (Hc' : filter_cfg self = Some cfg) by exact Hc.
    change (ann_file args) with (ann_file self).
    unfold full_init, load_data_list. rewrite Hf', Hb'.
    change (String.eqb "bottomup" "topdown") with false. cbv iota.
    destruct (load_annotations_trace w self) as [[Hw Hl] | [Hw [r Hl]]];
      rewrite Hl.
    + exists [], FileNotFoundError. split; [reflexivity |].
      intro Hne. contradiction.
    + destruct r as [l | e]; cbn [mbind mlift mret app].
      * destruct (_get_bottomup_data_infos l) as [aggs | e];
          cbn [mbind mlift mret app].
        -- rewrite (filter_data_not_topdown _ cfg thr);
             [| exact Hc | exact Hthr | exact Hm].
           exists [EvRead (ann_file self)], ValueError.
           split; reflexivity.
        -- exists [EvRead (ann_file self)], e. split; reflexivity.
      * exists [EvRead (ann_file self)], e. split; reflexivity.
Qed.

Lemma configuration_errors_witness :
  __init__ Ex.world (Ex.dataset "topdown" (Some "dets.json"%string) None
                                false false) =
    ([], Raise ValueError) /\
  filter_data (Ex.bottomup_thr false) = Raise ValueError.
Proof.
  split.
  - apply (proj1 (configuration_errors Ex.world _)).
    right. right. split; reflexivity.
  - apply (proj2 (configuration_errors Ex.world (Ex.bottomup_thr false))
                 {| bbox_score_thr := Some 0.5 |} 0.5);
      [reflexivity | reflexivity | discriminate].
Defined.

(** With a score threshold in bottom-up mode, the constructor raises only
    after the annotation file has been read, and under [lazy_init] it does not
    raise. *)
Lemma threshold_error_after_load :
  (exists l, load_data_list Ex.world (Ex.bottomup_thr false) =
             ([EvRead "ann.json"], Ok l)) /\
  __init__ Ex.world (Ex.bottomup_thr false) =
    ([EvRead "ann.json"], Raise ValueError) /\
  fst (__init__ Ex.world (Ex.bottomup_thr false)) <> [] /\
  __init__ Ex.world (Ex.bottomup_thr true) =
    ([], Ok (Ex.bottomup_thr true)).
Proof.
  split; [eexists; reflexivity |].
  split; [reflexivity |]. split; [discriminate | reflexivity].
Qed.

(** ** Records of the annotation loader *)

Section AnnotationLoader.

Context {cocomask : MaskLibrary}.

Variable self : CocoDataset.
Variable coco : coco_index.

(** A property of the records parsed from the annotations that the index
    returns for an image with the crowd filter off. *)
Variable P : data_info -> Prop.

Hypothesis P_parsed :
  forall img_id ann img d,
    In ann (coco_anns coco) ->
    In (ann_id ann) (getAnnIds coco img_id false) ->
    parse_data_info self ann img = Ok d ->
    P d.

Lemma loadAnns_found (ids : list Z) (anns : list raw_ann) :
  loadAnns coco ids = Ok anns ->
  Forall (fun ann => In ann (coco_anns coco) /\ In (ann_id ann) ids) anns.
Proof.
  revert anns. induction ids as [| i ids IH]; intros anns Hl; simpl in Hl.
  - injection Hl as <-. constructor.
  - destruct (find (fun ann => Z.eqb (ann_id ann) i) (coco_anns coco))
      as [ann |] eqn:Ef; [| discriminate].
    destruct (loadAnns coco ids) as [t |]; simpl in Hl; [| discriminate].
    injection Hl as <-. apply find_some in Ef. destruct Ef as [Hin Hid].
    apply Z.eqb_eq in Hid. constructor.
    + split; [exact Hin | left; symmetry; exact Hid].
    + eapply Forall_impl; [| apply IH; reflexivity].
      simpl. intros a [Ha Hi]. split; [exact Ha | right; exact Hi].
Qed.

Lemma anns_loop_inv (img_id : Z) (img : raw_img) (anns : list raw_ann) :
  Forall (fun ann => In ann (coco_anns coco) /\
                     In (ann_id ann) (getAnnIds coco img_id false)) anns ->
  forall acc out,
    Forall P acc -> anns_loop self img anns acc = Ok out -> Forall P out.
Proof.
  induction 1 as [| ann anns [Hin Hid] Hanns IH]; intros acc out Hacc Hl;
    simpl in Hl.
  - injection Hl as <-. exact Hacc.
  - destruct (parse_data_info self ann img) as [d |] eqn:Ep;
      simpl in Hl; [| discriminate].
    apply (IH (acc ++ [d])); [| exact Hl].
    apply Forall_app. split; [exact Hacc |].
    constructor; [| constructor]. exact (P_parsed img_id ann img d Hin Hid Ep).
Qed.

Lemma imgs_loop_inv (img_ids : list Z) :
  forall acc out,
    Forall P acc -> imgs_loop self coco img_ids acc = Ok out -> Forall P out.
Proof.
  induction img_ids as [| img_id rest IH]; intros acc out Hacc Hl;
    simpl in Hl.
  - injection Hl as <-. exact Hacc.
  - destruct (loadImgs coco img_id) as [img |]; simpl in Hl; [| discriminate].
    destruct (loadAnns coco (getAnnIds coco img_id false)) as [anns |] eqn:Ea;
      simpl in Hl; [| discriminate].
    destruct (anns_loop self img anns acc) as [acc' |] eqn:El;
      simpl in Hl; [| discriminate].
    apply (IH acc' out); [| exact Hl].
    apply (anns_loop_inv img_id img anns (loadAnns_found _ _ Ea) acc acc' Hacc El).
Qed.

Lemma load_annotations_inv (w : World) (t : list event) (l : list data_info) :
  w (ann_file self) = Some (CocoFile coco) ->
  _load_annotations w self = (t, Ok l) -> Forall P l.
Proof.
  intros Hw. unfold _load_annotations, check_file_exist, COCO. rewrite Hw.
  cbn [mbind mret mlift app].
  intro Hl. injection Hl as _ Hl.
  apply (imgs_loop_inv (getImgIds coco) [] l); [constructor | exact Hl].
Qed.

End AnnotationLoader.

Lemma load_annotations_file `{MaskLibrary} (w : World) (self : CocoDataset)
      (t : list event) (l : list data_info) :
  _load_annotations w self = (t, Ok l) ->
  exists coco, w (ann_file self) = Some (CocoFile coco).
Proof.
  unfold _load_annotations, check_file_exist, COCO.
  destruct (w (ann_file self)) as [[coco | ds] |]; cbn [mbind mret mlift app].
  - eauto.
  - discriminate.
  - discriminate.
Qed.

Lemma parse_data_info_fields `{MaskLibrary} (self : CocoDataset) (ann : raw_ann)
      (img : raw_img) (d : data_info) :
  parse_data_info self ann img = Ok d ->
  di_sigmas d = meta_sigmas (metainfo self) /\
  di_iscrowd d = crowd_flag ann /\
  di_image_id d = ann_image_id ann /\
  di_id d = ann_id ann.
Proof.
  unfold parse_data_info. destruct (ann_bbox ann) as [[[x y] w] h].
  destruct (Np.reshape_1_m1_3 (ann_keypoints ann)); cbn [rbind];
    [| discriminate].
  intro Hd. injection Hd as <-. simpl. repeat split; reflexivity.
Qed.

Lemma Forall2_in_r {A B} (R : A -> B -> Prop) (l1 : list A) (l2 : list B) (b : B) :
  Forall2 R l1 l2 -> In b l2 -> exists a, In a l1 /\ R a b.
Proof.
  induction 1 as [| x y l1 l2 Hxy HR IH]; simpl; [tauto |].
  intros [<- | Hb].
  - exists x. split; [now left | exact Hxy].
  - destruct (IH Hb) as (a & Ha & Hab). exists a. split; [now right | exact Hab].
Qed.

(** A property shared by all records is shared by the scalar fields of the
    aggregates, which come from a valid record. *)
Lemma bottomup_first_valid `{MaskLibrary} (l : list data_info)
      (aggs : list data_info_bu) (a : data_info_bu) :
  _get_bottomup_data_infos l = Ok aggs -> In a aggs ->
  exists v, In v l /\ _is_valid_instance v = true /\
            bu_sigmas a = di_sigmas v /\
            bu_image_file a = di_image_file v /\
            bu_image_shape a = di_image_shape v.
Proof.
  intros Hb Ha. unfold _get_bottomup_data_infos in Hb.
  apply bottomup_loop_spec in Hb. destruct Hb as (news & -> & HF).
  simpl in Ha. destruct (Forall2_in_r _ _ _ _ HF Ha) as ([k g] & Hg & Hga).
  simpl in Hga. apply bottomup_group_some in Hga.
  destruct Hga as (v & vs & Hf & _ & Hfile & Hshape & Hsig & _).
  apply filter_In in Hg. destruct Hg as [Hg _].
  assert (Hv : In v (filter _is_valid_instance g)) by (rewrite Hf; now left).
  apply filter_In in Hv. destruct Hv as [Hv Hvalid].
  exists v. split; [| tauto].
  rewrite <- (groupby_concat di_image_id l). apply in_concat.
  exists g. split; [| exact Hv]. apply in_map_iff. now exists (k, g).
Qed.

(** C9 (amended).  Every record that [load_data_list] produces from the
    annotations, an instance record in top-down mode or an aggregate in
    bottom-up mode, carries the [sigmas] of the dataset metadata; the records
    produced from a detection file carry no [sigmas] entry. *)
Theorem records_sigmas `{MaskLibrary} (w : World) (self : CocoDataset)
        (t : list event) (l : list sample) :
  load_data_list w self = (t, Ok l) ->
  (bbox_file_set self = false ->
   Forall (fun s => sample_sigmas s = Some (meta_sigmas (metainfo self))) l) /\
  (bbox_file_set self = true ->
   Forall (fun s => sample_sigmas s = None) l).
Proof.
  unfold load_data_list. intro Hl.
  destruct (bbox_file_set self) eqn:Eb.
  - split; [discriminate |]. intros _.
    destruct (_load_detection_results w self) as [t0 [dl | e]];
      cbn [mbind mret mlift app] in Hl; [| discriminate].
    injection Hl as _ <-. apply Forall_forall. intros s Hs.
    apply in_map_iff in Hs. destruct Hs as (d & <- & _). reflexivity.
  - split; [| discriminate]. intros _.
    destruct (_load_annotations w self) as [t0 [dl | e]] eqn:Ea;
      cbn [mbind mret mlift app] in Hl; [| discriminate].
    destruct (load_annotations_file _ _ _ _ Ea) as [coco Hw].
    assert (Hdl : Forall (fun d => di_sigmas d = meta_sigmas (metainfo self)) dl).
    { apply (load_annotations_inv self coco _) with (w := w) (t := t0);
        [| exact Hw | exact Ea].
      intros img_id ann img d _ _ Hp.
      apply (parse_data_info_fields _ _ _ _ Hp). }
    rewrite Forall_forall in Hdl.
    destruct (String.eqb (data_mode self) "topdown").
    + cbn [mbind mret mlift app] in Hl. injection Hl as _ <-.
      apply Forall_forall. intros s Hs. apply in_map_iff in Hs.
      destruct Hs as (d & <- & Hd). simpl. f_equal. apply Hdl.
      unfold _get_topdown_data_infos in Hd. apply filter_In in Hd. tauto.
    + destruct (_get_bottomup_data_infos dl) as [aggs | e] eqn:Eg;
        cbn [mbind mret mlift app] in Hl; [| discriminate].
      injection Hl as _ <-.
      apply Forall_forall. intros s Hs. apply in_map_iff in Hs.
      destruct Hs as (a & <- & Ha). simpl. f_equal.
      destruct (bottomup_first_valid dl aggs a Eg Ha) as (v & Hv & _ & Hs & _).
      rewrite Hs. apply Hdl. exact Hv.
Qed.

Lemma records_sigmas_witness :
  exists l,
    load_data_list Ex.world Ex.topdown = ([EvRead "ann.json"], Ok l) /\
    List.length l = 2%nat /\
    Forall (fun s => sample_sigmas s = Some (meta_sigmas (metainfo Ex.topdown)))
           l.
Proof.
  eexists. split; [reflexivity |]. split; [reflexivity |].
  refine (proj1 (records_sigmas Ex.world Ex.topdown [EvRead "ann.json"] _ _) _);
    reflexivity.
Defined.

(** The records loaded from the detection file of the example carry no
    [sigmas] entry. *)
Lemma detection_records_without_sigmas :
  exists l,
    load_data_list Ex.world Ex.with_detections =
      ([EvRead "dets.json"; EvRead "ann.json"], Ok l) /\
    List.length l = 2%nat /\
    Forall (fun s => sample_sigmas s = None) l /\
    ~ Forall (fun s => sample_sigmas s =
                       Some (meta_sigmas (metainfo Ex.with_detections))) l.
Proof.
  eexists. split; [reflexivity |]. split; [reflexivity |]. split.
  - repeat constructor.
  - intro Hall. inversion Hall as [| ? ? Hs _]. discriminate.
Qed.

(** ** The crowd filter *)

Lemma NoDup_map_inj {A B} (f : A -> B) (l : list A) (x y : A) :
  NoDup (map f l) -> In x l -> In y l -> f x = f y -> x = y.
Proof.
  induction l as [| a l IH]; simpl; [tauto |]. intros Hnd Hx Hy Hxy.
  inversion Hnd as [| ? ? Ha Hl]; subst.
  destruct Hx as [<- | Hx]; destruct Hy as [<- | Hy]; trivial.
  - exfalso. apply Ha. rewrite Hxy. now apply in_map.
  - exfalso. apply Ha. rewrite <- Hxy. now apply in_map.
  - now apply IH.
Qed.

(** With distinct annotation ids, an annotation whose id the index returns
    under the crowd filter [false] is not a crowd and belongs to the image. *)
Lemma getAnnIds_not_crowd (coco : coco_index) (img_id : Z) (ann : raw_ann) :
  NoDup (map ann_id (coco_anns coco)) ->
  In ann (coco_anns coco) ->
  In (ann_id ann) (getAnnIds coco img_id false) ->
  crowd_flag ann = 0%Z /\ ann_image_id ann = img_id.
Proof.
  intros Hnd Hin Hid. unfold getAnnIds in Hid. apply in_map_iff in Hid.
  destruct Hid as (ann' & Hid & Hin'). apply filter_In in Hin'.
  destruct Hin' as [Hin' Hf].
  assert (ann' = ann) by (apply (NoDup_map_inj ann_id (coco_anns coco)); assumption).
  subst ann'. apply andb_prop in Hf. destruct Hf as [Hi Hc].
  apply Z.eqb_eq in Hi, Hc. tauto.
Qed.

(** The crowd branch of the mask loop appends one mask; outside it the loop
    leaves the list unchanged or extends it with the parts of the region. *)
Lemma rles_step_branches `{MaskLibrary} (shape : Z * Z * Z) (rles : list pyobj)
      (d : data_info) :
  (crowd_branch d = true ->
   exists seg, di_segmentation d = Some seg /\
               rles_step shape rles d =
               rles ++ [frPyObjects seg (fst (fst shape)) (snd (fst shape))]) /\
  (crowd_branch d = false ->
   rles_step shape rles d = rles \/
   exists seg, di_segmentation d = Some seg /\ di_num_keypoints d = 0%Z /\
               rles_step shape rles d =
               rles ++ py_iter (frPyObjects seg (fst (fst shape))
                                            (snd (fst shape)))).
Proof.
  unfold crowd_branch, rles_step. destruct shape as [[img_h img_w] c].
  destruct (di_segmentation d) as [seg |]; simpl fst; simpl snd.
  - destruct (seg_truthy (Some seg)); simpl negb; cbv iota.
    + destruct (truthy (di_iscrowd d)); simpl.
      * split; [eauto | discriminate].
      * split; [discriminate |]. intros _.
        destruct (Z.eqb (di_num_keypoints d) 0) eqn:En; [| now left].
        apply Z.eqb_eq in En. right. eauto.
    + split; [discriminate | now left].
  - split; [discriminate | now left].
Qed.

(** C10.  With distinct annotation ids in the annotation file, every record
    that [_load_annotations] produces has [iscrowd] 0: an invalid one is
    invalid for its keypoint count or its box, and the mask loop never takes
    its crowd branch on it. *)
Theorem annotations_never_crowd `{MaskLibrary} (w : World) (self : CocoDataset)
        (coco : coco_index) (t : list event) (l : list data_info) :
  w (ann_file self) = Some (CocoFile coco) ->
  NoDup (map ann_id (coco_anns coco)) ->
  _load_annotations w self = (t, Ok l) ->
  Forall
    (fun d =>
       di_iscrowd d = 0%Z /\
       truthy (di_iscrowd d) = false /\
       (_is_valid_instance d = false ->
        di_num_keypoints d = 0%Z \/
        bbox_w (di_bbox d) <= 0 \/ bbox_h (di_bbox d) <= 0) /\
       crowd_branch d = false /\
       forall shape rles,
         rles_step shape rles d = rles \/
         exists seg, di_segmentation d = Some seg /\ di_num_keypoints d = 0%Z /\
                     rles_step shape rles d =
                     rles ++ py_iter (frPyObjects seg (fst (fst shape))
                                                  (snd (fst shape))))
    l.
Proof.
  intros Hw Hnd Hl.
  assert (Hc : Forall (fun d => di_iscrowd d = 0%Z) l).
  { apply (load_annotations_inv self coco _) with (w := w) (t := t);
      [| exact Hw | exact Hl].
    intros img_id ann img d Hin Hid Hp.
    destruct (parse_data_info_fields _ _ _ _ Hp) as (_ & -> & _).
    apply (getAnnIds_not_crowd coco img_id ann Hnd Hin Hid). }
  eapply Forall_impl; [| exact Hc]. intros d Hd. simpl in Hd.
  assert (Ht : truthy (di_iscrowd d) = false) by (rewrite Hd; reflexivity).
  assert (Hb : crowd_branch d = false).
  { unfold crowd_branch. rewrite Ht. apply andb_false_r. }
  split; [exact Hd |]. split; [exact Ht |]. split; [| split; [exact Hb |]].
  - intro Hv. apply is_valid_instance_false in Hv. rewrite Ht in Hv.
    destruct Hv as [Hv | Hv]; [discriminate | exact Hv].
  - intros shape rles.
    apply (proj2 (rles_step_branches shape rles d) Hb).
Qed.

Lemma annotations_never_crowd_witness :
  exists l,
    _load_annotations Ex.world Ex.topdown = ([EvRead "ann.json"], Ok l) /\
    map di_id l = [11; 12; 21]%Z /\
    Forall (fun d => di_iscrowd d = 0%Z /\ crowd_branch d = false) l.
Proof.
  eexists. split; [reflexivity |]. split; [reflexivity |].
  eapply Forall_impl;
    [| refine (annotations_never_crowd Ex.world Ex.topdown Ex.coco
                                      [EvRead "ann.json"] _ _ _ _)].
  - intros d Hd. simpl in Hd. tauto.
  - reflexivity.
  - repeat constructor; simpl; intuition discriminate.
  - reflexivity.
Defined.

(* ------------------------------------------------------------------ *)
(** * Further properties *)

(** ** Keypoints of a parsed annotation *)

Lemma reshape_1_m1_3_nth (i : nat) :
  forall l t x y v,
    Np.reshape_1_m1_3 l = Ok t ->
    nth_error l (3 * i) = Some x ->
    nth_error l (3 * i + 1) = Some y ->
    nth_error l (3 * i + 2) = Some v ->
    nth_error t i = Some (x, y, v).
Proof.
  induction i as [| i IH]; intros l t x y v Hr Hx Hy Hv;
    destruct l as [| a [| b [| c l']]]; try discriminate;
    simpl in Hr;
    destruct (Np.reshape_1_m1_3 l') as [t' |] eqn:Er; try discriminate;
    injection Hr as <-.
  - simpl in *. congruence.
  - replace (3 * S i)%nat with (S (S (S (3 * i)))) in * by lia.
    simpl in Hx, Hy, Hv. simpl. apply (IH l' t' x y v); trivial.
Qed.

Lemma reshape_1_m1_3_length (l : list Q) :
  forall t, Np.reshape_1_m1_3 l = Ok t -> (3 * List.length t = List.length l)%nat.
Proof.
  remember (List.length l) as n eqn:Hn.
  revert l Hn. induction n as [n IH] using lt_wf_ind. intros l Hn t Hr.
  destruct l as [| a [| b [| c l']]]; try discriminate.
  - injection Hr as <-. subst n. reflexivity.
  - simpl in Hr.
    destruct (Np.reshape_1_m1_3 l') as [t' |] eqn:Er; try discriminate.
    injection Hr as <-. subst n. simpl.
    rewrite <- (IH (List.length l')) with (l := l') (t := t'); trivial.
    + lia.
    + simpl. lia.
Qed.

Lemma minimum_one_cases (v : Q) :
  Np.minimum 1 v <= 1 /\
  (1 <= v -> Np.minimum 1 v = 1) /\
  (v < 1 -> Np.minimum 1 v = v).
Proof.
  unfold Np.minimum.
  destruct (Qle_bool 1 v) eqn:E;
    [apply Qle_bool_iff in E | apply Qle_bool_false in E].
  - split; [lra |]. split; [reflexivity |]. intro Hv. exfalso. lra.
  - split; [lra |]. split; [| reflexivity]. intro Hv. exfalso. lra.
Qed.

(** X2.  In a parsed record, keypoint [i] has the coordinates at positions
    [3i] and [3i + 1] of the keypoint list of the annotation, and its
    visibility is the entry at position [3i + 2], replaced by 1 when it is at
    least 1 and unchanged when it is below 1. *)
Theorem parse_data_info_keypoints `{MaskLibrary} (self : CocoDataset)
        (ann : raw_ann) (img : raw_img) (d : data_info)
        (i : nat) (x y v : Q) :
  parse_data_info self ann img = Ok d ->
  nth_error (ann_keypoints ann) (3 * i) = Some x ->
  nth_error (ann_keypoints ann) (3 * i + 1) = Some y ->
  nth_error (ann_keypoints ann) (3 * i + 2) = Some v ->
  nth_error (di_keypoints d) i = Some (x, y) /\
  exists u, nth_error (di_keypoints_visible d) i = Some u /\
            (1 <= v -> u = 1) /\ (v < 1 -> u = v).
Proof.
  unfold parse_data_info. destruct (ann_bbox ann) as [[[bx by_] bw] bh].
  destruct (Np.reshape_1_m1_3 (ann_keypoints ann)) as [t |] eqn:Er;
    cbn [rbind]; [| discriminate].
  intros Hd Hx Hy Hv. injection Hd as <-. simpl.
  pose proof (reshape_1_m1_3_nth i _ t x y v Er Hx Hy Hv) as Ht.
  rewrite !nth_error_map, Ht. simpl. split; [reflexivity |].
  eexists. split; [reflexivity |]. apply minimum_one_cases.
Qed.

Lemma parse_data_info_keypoints_witness :
  exists d,
    parse_data_info Ex.topdown Ex.ann_inside Ex.img1 = Ok d /\
    nth_error (di_keypoints d) 0 = Some (20, 30) /\
    exists u, nth_error (di_keypoints_visible d) 0 = Some u /\
              (1 <= 2 -> u = 1) /\ (2 < 1 -> u = 2).
Proof.
  eexists. split; [reflexivity |].
  apply (parse_data_info_keypoints Ex.topdown Ex.ann_inside Ex.img1 _ 0%nat);
    reflexivity.
Defined.

(** X3.  A parsed record has as many keypoints as visibilities, a third of
    the length of the keypoint list of the annotation, and no visibility
    exceeds 1. *)
Theorem parse_data_info_shapes `{MaskLibrary} (self : CocoDataset)
        (ann : raw_ann) (img : raw_img) (d : data_info) :
  parse_data_info self ann img = Ok d ->
  List.length (di_keypoints d) = List.length (di_keypoints_visible d) /\
  (3 * List.length (di_keypoints d) = List.length (ann_keypoints ann))%nat /\
  Forall (fun u => u <= 1) (di_keypoints_visible d).
Proof.
  unfold parse_data_info. destruct (ann_bbox ann) as [[[bx by_] bw] bh].
  destruct (Np.reshape_1_m1_3 (ann_keypoints ann)) as [t |] eqn:Er;
    cbn [rbind]; [| discriminate].
  intro Hd. injection Hd as <-. simpl. rewrite !length_map.
  split; [reflexivity |]. split; [apply reshape_1_m1_3_length; exact Er |].
  apply Forall_forall. intros u Hu. apply in_map_iff in Hu.
  destruct Hu as (tr & <- & _). apply minimum_one_cases.
Qed.

Lemma parse_data_info_shapes_witness :
  exists d,
    parse_data_info Ex.topdown Ex.ann_inside Ex.img1 = Ok d /\
    List.length (di_keypoints d) = List.length (di_keypoints_visible d) /\
    (3 * List.length (di_keypoints d) =
     List.length (ann_keypoints Ex.ann_inside))%nat /\
    Forall (fun u => u <= 1) (di_keypoints_visible d).
Proof.
  eexists. split; [reflexivity |].
  apply (parse_data_info_shapes Ex.topdown Ex.ann_inside Ex.img1).
  reflexivity.
Defined.

(** An annotation with four keypoint values is rejected. *)
Example parse_data_info_malformed :
  parse_data_info Ex.topdown Ex2.ann_malformed Ex.img1 = Raise ValueError.
Proof. reflexivity. Qed.

Lemma count_nonzero_bounds (a : list Q) :
  (Np.count_nonzero a <= List.length a)%nat /\
  (Np.count_nonzero a = 0%nat <-> Forall (fun v => v == 0) a).
Proof.
  unfold Np.count_nonzero. induction a as [| v a [IHl IHz]]; simpl.
  - split; [lia |]. split; [constructor | reflexivity].
  - destruct (Qeq_bool v 0) eqn:Ev; simpl.
    + apply Qeq_bool_iff in Ev. split; [lia |]. rewrite IHz. split.
      * intro Ha. constructor; assumption.
      * intro Ha. inversion Ha. assumption.
    + split; [lia |]. split; [discriminate |].
      intro Ha. inversion Ha as [| ? ? Hv _]; subst.
      apply Qeq_bool_iff in Hv. congruence.
Qed.

(** X4.  When the annotation supplies no [num_keypoints], the count of a
    parsed record is the number of keypoint slots whose larger coordinate is
    not 0: it lies between 0 and the number of slots, and it is 0, making the
    record invalid, exactly when the larger coordinate of every slot is 0. *)
Theorem parse_data_info_counts `{MaskLibrary} (self : CocoDataset)
        (ann : raw_ann) (img : raw_img) (d : data_info) :
  ann_num_keypoints ann = None ->
  parse_data_info self ann img = Ok d ->
  (0 <= di_num_keypoints d <= Z.of_nat (List.length (di_keypoints d)))%Z /\
  (di_num_keypoints d = 0%Z <->
   Forall (fun p => Np.maximum (fst p) (snd p) == 0) (di_keypoints d)) /\
  (Forall (fun p => Np.maximum (fst p) (snd p) == 0) (di_keypoints d) ->
   _is_valid_instance d = false).
Proof.
  unfold parse_data_info. destruct (ann_bbox ann) as [[[bx by_] bw] bh].
  destruct (Np.reshape_1_m1_3 (ann_keypoints ann)) as [t |] eqn:Er;
    cbn [rbind]; [| discriminate].
  intros Hn Hd. rewrite Hn in Hd. injection Hd as <-.
  cbn [di_num_keypoints di_keypoints].
  set (kps := map (fun tr => (fst (fst tr), snd (fst tr))) t).
  destruct (count_nonzero_bounds
              (map (fun p => Np.maximum (fst p) (snd p)) kps)) as [Hle Hz].
  rewrite length_map in Hle.
  assert (Hz' : Z.of_nat (Np.count_nonzero
                  (map (fun p => Np.maximum (fst p) (snd p)) kps)) = 0%Z <->
                Forall (fun p => Np.maximum (fst p) (snd p) == 0) kps).
  { rewrite <- Nat2Z.inj_0, Nat2Z.inj_iff, Hz, Forall_map. reflexivity. }
  split; [lia |]. split; [exact Hz' |].
  intro Hall. apply is_valid_instance_false. right. left.
  cbn [di_num_keypoints]. apply Hz'. exact Hall.
Qed.

Lemma parse_data_info_counts_witness :
  exists d,
    parse_data_info Ex.topdown Ex2.ann_counted Ex.img1 = Ok d /\
    di_num_keypoints d = 1%Z /\
    (0 <= di_num_keypoints d <= Z.of_nat (List.length (di_keypoints d)))%Z.
Proof.
  eexists. split; [reflexivity |]. split; [reflexivity |].
  apply (parse_data_info_counts Ex.topdown Ex2.ann_counted Ex.img1);
    reflexivity.
Defined.

(** ** The box of a parsed annotation *)

(** A value clipped strictly above another one is larger, exceeds the lower
    bound, and the other one lies below the upper bound. *)
Lemma clip_lt_inv (a b lo hi : Q) :
  Np.clip a lo hi < Np.clip b lo hi -> a < b /\ lo < b /\ a < hi.
Proof.
  unfold Np.clip, Np.minimum, Np.maximum. qcases; intro Hlt; lra.
Qed.

(** X5.  A parsed record is valid only if its annotation is no crowd, its
    keypoint count is not 0, the source width and height are positive, and
    the source box starts before the last column and row of the image and
    ends after the first ones. *)
Theorem valid_only_if `{MaskLibrary} (self : CocoDataset)
        (ann : raw_ann) (img : raw_img) (d : data_info) (x y w h : Q) :
  parse_data_info self ann img = Ok d ->
  ann_bbox ann = (x, y, w, h) ->
  _is_valid_instance d = true ->
  crowd_flag ann = 0%Z /\ di_num_keypoints d <> 0%Z /\
  0 < w /\ 0 < h /\
  x < inject_Z (img_width img - 1) /\ y < inject_Z (img_height img - 1) /\
  0 < x + w /\ 0 < y + h.
Proof.
  unfold parse_data_info. intros Hd Hb Hv. rewrite Hb in Hd.
  destruct (Np.reshape_1_m1_3 (ann_keypoints ann)) as [t |] eqn:Er;
    cbn [rbind] in Hd; [| discriminate].
  injection Hd as <-.
  match type of Hv with
  | _is_valid_instance ?r = true =>
      pose proof (is_valid_instance_false r) as Hiff
  end.
  rewrite Hv in Hiff. cbn [di_iscrowd di_num_keypoints di_bbox] in Hiff.
  unfold bbox_w, bbox_h in Hiff. cbn [fst snd] in Hiff.
  fold (crowd_flag ann) in Hiff.
  assert (Hc : crowd_flag ann = 0%Z).
  { destruct (Z.eq_dec (crowd_flag ann) 0) as [Hz | Hz]; [exact Hz |].
    exfalso. assert (Hf : true = false); [| discriminate].
    apply Hiff. left. apply truthy_true. exact Hz. }
  split; [exact Hc |]. split.
  { intro Hn. assert (Hf : true = false); [| discriminate].
    apply Hiff. right. left. exact Hn. }
  assert (Hx : Np.clip x 0 (inject_Z (img_width img - 1)) <
               Np.clip (x + w) 0 (inject_Z (img_width img - 1))).
  { apply Qnot_le_lt. intro Hle. assert (Hf : true = false); [| discriminate].
    apply Hiff. right. right. left. lra. }
  assert (Hy : Np.clip y 0 (inject_Z (img_height img - 1)) <
               Np.clip (y + h) 0 (inject_Z (img_height img - 1))).
  { apply Qnot_le_lt. intro Hle. assert (Hf : true = false); [| discriminate].
    apply Hiff. right. right. right. lra. }
  apply clip_lt_inv in Hx, Hy. repeat split; lra.
Qed.

Lemma valid_only_if_witness :
  exists d,
    parse_data_info Ex.topdown Ex.ann_inside Ex.img1 = Ok d /\
    _is_valid_instance d = true /\
    0 < 50 /\ 10 < inject_Z (img_width Ex.img1 - 1).
Proof.
  eexists. split; [reflexivity |]. split; [reflexivity |].
  destruct (valid_only_if Ex.topdown Ex.ann_inside Ex.img1 _ 10 10 50 50
              eq_refl eq_refl eq_refl) as (_ & _ & Hw & _ & Hx & _).
  split; assumption.
Defined.

(** X6.  Clipping keeps the sign of the extents of a box: for a source width
    [w >= 0] the stored width is at least 0, and for [w <= 0] it is at most
    0; likewise for the height. *)
Theorem parse_data_info_extent_sign `{MaskLibrary} (self : CocoDataset)
        (ann : raw_ann) (img : raw_img) (d : data_info) (x y w h : Q) :
  parse_data_info self ann img = Ok d ->
  ann_bbox ann = (x, y, w, h) ->
  (0 <= w -> 0 <= bbox_w (di_bbox d)) /\
  (w <= 0 -> bbox_w (di_bbox d) <= 0) /\
  (0 <= h -> 0 <= bbox_h (di_bbox d)) /\
  (h <= 0 -> bbox_h (di_bbox d) <= 0).
Proof.
  unfold parse_data_info. intros Hd Hb. rewrite Hb in Hd.
  destruct (Np.reshape_1_m1_3 (ann_keypoints ann)) as [t |] eqn:Er;
    cbn [rbind] in Hd; [| discriminate].
  injection Hd as <-. unfold bbox_w, bbox_h. cbn [di_bbox fst snd].
  split; [| split; [| split]].
  - intro Hw.
    pose proof (clip_mono x (x + w) 0 (inject_Z (img_width img - 1))). lra.
  - intro Hw.
    pose proof (clip_mono (x + w) x 0 (inject_Z (img_width img - 1))). lra.
  - intro Hh.
    pose proof (clip_mono y (y + h) 0 (inject_Z (img_height img - 1))). lra.
  - intro Hh.
    pose proof (clip_mono (y + h) y 0 (inject_Z (img_height img - 1))). lra.
Qed.

Lemma parse_data_info_extent_sign_witness :
  exists d,
    parse_data_info Ex.topdown Ex2.ann_crossing Ex.img1 = Ok d /\
    bbox_w (di_bbox d) == 99 /\
    0 <= bbox_w (di_bbox d).
Proof.
  eexists. split; [reflexivity |]. split; [vm_compute; reflexivity |].
  apply (parse_data_info_extent_sign Ex.topdown Ex2.ann_crossing Ex.img1 _
                                     900 10 300 50 eq_refl eq_refl).
  vm_compute. discriminate.
Defined.

(** ** More on the score filter *)

Lemma filterfalse_list_idem {A} (pred : A -> result bool) (l : list A) :
  forall l', filterfalse_list pred l = Ok l' -> filterfalse_list pred l' = Ok l'.
Proof.
  induction l as [| x l IH]; intros l' Hl; simpl in Hl.
  - injection Hl as <-. reflexivity.
  - destruct (pred x) as [b |] eqn:Ep; cbn [rbind] in Hl; [| discriminate].
    destruct (filterfalse_list pred l) as [t |]; cbn [rbind] in Hl;
      [| discriminate].
    injection Hl as <-. specialize (IH t eq_refl). destruct b.
    + exact IH.
    + simpl. rewrite Ep, IH. reflexivity.
Qed.

(** X7.  Filtering is idempotent: when [filter_data] returns a list, running
    it again on a dataset holding that list returns the same list, in every
    mode and for every kind of record. *)
Theorem filter_data_idempotent `{MaskLibrary} (self : CocoDataset)
        (l : list sample) :
  filter_data self = Ok l -> filter_data (set_data_list self l) = Ok l.
Proof.
  unfold filter_data. cbn [set_data_list filter_cfg data_mode data_list].
  destruct (filter_cfg self) as [cfg |]; [| trivial].
  destruct (bbox_score_thr cfg) as [thr |]; [| trivial].
  destruct (negb (String.eqb (data_mode self) "topdown")); [discriminate |].
  apply filterfalse_list_idem.
Qed.

Lemma filter_data_idempotent_witness :
  exists l,
    filter_data Ex.scored = Ok l /\
    List.length l = 2%nat /\
    filter_data (set_data_list Ex.scored l) = Ok l.
Proof.
  eexists. split; [reflexivity |]. split; [reflexivity |].
  apply (filter_data_idempotent Ex.scored). reflexivity.
Defined.

Lemma load_data_list_topdown `{MaskLibrary} (w : World) (self : CocoDataset)
      (t : list event) (l : list sample) :
  bbox_file_set self = false ->
  data_mode self = "topdown"%string ->
  load_data_list w self = (t, Ok l) ->
  exists dl coco,
    w (ann_file self) = Some (CocoFile coco) /\
    _load_annotations w self = (t, Ok dl) /\
    l = map Instance (_get_topdown_data_infos dl).
Proof.
  intros Hb Hm. unfold load_data_list. rewrite Hb, Hm.
  change (String.eqb "topdown" "topdown") with true. cbv iota.
  destruct (_load_annotations w self) as [t0 [dl | e]] eqn:Ea;
    cbn [mbind mret mlift app]; [| discriminate].
  rewrite app_nil_r. intro Hl. injection Hl as -> <-.
  destruct (load_annotations_file _ _ _ _ Ea) as [coco Hw].
  exists dl, coco. repeat split; trivial.
Qed.

Lemma parse_data_info_score `{MaskLibrary} (self : CocoDataset) (ann : raw_ann)
      (img : raw_img) (d : data_info) :
  parse_data_info self ann img = Ok d -> di_bbox_score d = 1.
Proof.
  unfold parse_data_info. destruct (ann_bbox ann) as [[[x y] w] h].
  destruct (Np.reshape_1_m1_3 (ann_keypoints ann)); cbn [rbind];
    [| discriminate].
  intro Hd. injection Hd as <-. reflexivity.
Qed.

Lemma round_half_even_le (q : Q) (N : Z) :
  q <= inject_Z N -> (Np.round_half_even q <= N)%Z.
Proof.
  intro Hq. unfold Np.round_half_even.
  pose proof (Qfloor_le q) as Hf.
  assert (Hle : (Qfloor q <= N)%Z).
  { rewrite <- (Qfloor_Z N). apply Qfloor_resp_le. exact Hq. }
  assert (Hup : 0 < q - inject_Z (Qfloor q) -> (Qfloor q + 1 <= N)%Z).
  { intro Hpos. assert (Hlt : inject_Z (Qfloor q) < inject_Z N) by lra.
    rewrite <- Zlt_Qlt in Hlt. lia. }
  destruct (Qcompare (q - inject_Z (Qfloor q)) (1 # 2)) eqn:Ec.
  - apply Qeq_alt in Ec. destruct (Z.even (Qfloor q)); [exact Hle |].
    apply Hup. lra.
  - exact Hle.
  - apply Qgt_alt in Ec. apply Hup. lra.
Qed.

Lemma round_half_even_nonneg (q : Q) : 0 <= q -> (0 <= Np.round_half_even q)%Z.
Proof.
  intro Hq. unfold Np.round_half_even.
  assert (Hf : (0 <= Qfloor q)%Z).
  { rewrite <- (Qfloor_Z 0). apply Qfloor_resp_le. exact Hq. }
  destruct (Qcompare (q - inject_Z (Qfloor q)) (1 # 2));
    [destruct (Z.even (Qfloor q)) | |]; lia.
Qed.

Lemma pow2_nonpos (e : Z) :
  (e <= 0)%Z -> 2 ^ e == / inject_Z (2 ^ (- e)).
Proof.
  intro He. replace e with (- (- e))%Z at 1 by lia.
  rewrite Qpower_opp, Zpower_Qpower by lia. reflexivity.
Qed.

Lemma ilog2_le_one (a : Q) : 0 < a -> a <= 1 -> (Np.ilog2 a <= 0)%Z.
Proof.
  intros Ha Hle. unfold Np.ilog2.
  assert (Hk : (Z.log2 (Qnum a) <= Z.log2 (Zpos (Qden a)))%Z).
  { apply Z.log2_le_mono. unfold Qle in Hle. simpl in Hle. lia. }
  destruct (Qle_bool _ a); lia.
Qed.

(** Rounding to single precision does not lift a value above 1. *)
Lemma float32_le_one (x : Q) :
  x <= 1 ->
  match Np.float32 x with
  | Np.Fin y => y <= 1
  | Np.Inf negative => negative = true
  end.
Proof.
  intro Hx. unfold Np.float32.
  destruct (Qeq_bool x 0) eqn:E0; [lra |].
  apply Qeq_bool_neq in E0.
  set (a := Qabs x). set (e := Z.max (Np.ilog2 a - 23) (-149)).
  set (m := Np.round_half_even (a / 2 ^ e)).
  assert (Hp : 0 < 2 ^ e) by (apply Qpower_0_lt; lra).
  assert (Ha : 0 <= a) by apply Qabs_nonneg.
  assert (Hm : (0 <= m)%Z).
  { apply round_half_even_nonneg. apply Qle_shift_div_l; [exact Hp | lra]. }
  assert (Hr : 0 <= inject_Z m * 2 ^ e).
  { apply Qmult_le_0_compat; [| lra]. change 0 with (inject_Z 0).
    rewrite <- Zle_Qle. exact Hm. }
  destruct (Qle_bool 0 x) eqn:Es.
  - apply Qle_bool_iff in Es.
    assert (Hax : a == x) by (apply Qabs_pos; exact Es).
    assert (Hapos : 0 < a) by lra.
    assert (He : (e <= 0)%Z).
    { pose proof (ilog2_le_one a Hapos ltac:(lra)). subst e. lia. }
    pose proof (pow2_nonpos e He) as Hpow.
    assert (HN : (0 < 2 ^ (- e))%Z) by (apply Z.pow_pos_nonneg; lia).
    assert (HNq : 0 < inject_Z (2 ^ (- e))).
    { change 0 with (inject_Z 0). rewrite <- Zlt_Qlt. exact HN. }
    assert (Hmle : (m <= 2 ^ (- e))%Z).
    { apply round_half_even_le. rewrite Hpow. unfold Qdiv.
      rewrite Qinv_involutive.
      rewrite <- (Qmult_1_l (inject_Z (2 ^ (- e)))) at 2.
      apply Qmult_le_compat_r; lra. }
    assert (Hrle : inject_Z m * 2 ^ e <= 1).
    { rewrite Hpow. apply Qle_shift_div_r; [exact HNq |].
      rewrite Qmult_1_l. rewrite <- Zle_Qle. exact Hmle. }
    assert (Hbig : 1 < 2 ^ 128) by reflexivity.
    replace (Qle_bool (2 ^ 128) (inject_Z m * 2 ^ e)) with false.
    + exact Hrle.
    + symmetry. destruct (Qle_bool (2 ^ 128) (inject_Z m * 2 ^ e)) eqn:Eb;
        [| reflexivity].
      apply Qle_bool_iff in Eb. lra.
  - destruct (Qle_bool (2 ^ 128) (inject_Z m * 2 ^ e)); [reflexivity |]. lra.
Qed.

(** The score 1 is not below a threshold of at most 1. *)
Lemma lt32_one (thr : Q) : thr <= 1 -> Np.lt32 1 thr = false.
Proof.
  intro Hthr. unfold Np.lt32.
  assert (H1 : exists y, Np.float32 1 = Np.Fin y /\ y == 1)
    by (eexists; split; [vm_compute; reflexivity | vm_compute; reflexivity]).
  destruct H1 as (y & -> & Hy).
  pose proof (float32_le_one thr Hthr) as Hle.
  destruct (Np.float32 thr) as [t | negative]; simpl.
  - unfold Np.lt. apply negb_false_iff. apply Qle_bool_iff. lra.
  - rewrite Hle. reflexivity.
Qed.

(** X8.  On the records loaded from the annotations in top-down mode, whose
    score is 1, a score threshold of at most 1 removes nothing, and a
    threshold that exceeds 1 in single precision removes every record. *)
Theorem filter_data_ground_truth `{MaskLibrary} (w : World)
        (self : CocoDataset) (t : list event) (l : list sample)
        (cfg : filter_cfg_t) (thr : Q) :
  bbox_file_set self = false ->
  data_mode self = "topdown"%string ->
  filter_cfg self = Some cfg ->
  bbox_score_thr cfg = Some thr ->
  load_data_list w self = (t, Ok l) ->
  (thr <= 1 -> filter_data (set_data_list self l) = Ok l) /\
  (Np.f32_lt (Np.float32 1) (Np.float32 thr) = true ->
   filter_data (set_data_list self l) = Ok []).
Proof.
  intros Hb Hm Hc Ht Hl.
  destruct (load_data_list_topdown w self t l Hb Hm Hl)
    as (dl & coco & Hw & Ha & ->).
  assert (Hs : Forall (fun d => di_bbox_score d = 1) dl).
  { apply (load_annotations_inv self coco _) with (w := w) (t := t);
      [| exact Hw | exact Ha].
    intros img_id ann img d _ _ Hp. apply (parse_data_info_score _ _ _ _ Hp). }
  set (recs := map Instance (_get_topdown_data_infos dl)).
  assert (Hi : Forall instance_level recs).
  { apply Forall_forall. intros s Hin. apply in_map_iff in Hin.
    destruct Hin as (d & <- & _). exact I. }
  assert (Hone : forall s, In s recs -> sample_score s = 1).
  { intros s Hin. apply in_map_iff in Hin. destruct Hin as (d & <- & Hd).
    simpl. rewrite Forall_forall in Hs. apply Hs.
    unfold _get_topdown_data_infos in Hd. apply filter_In in Hd. tauto. }
  unfold filter_data. cbn [set_data_list filter_cfg data_mode data_list].
  rewrite Hc, Ht, Hm. change (String.eqb "topdown" "topdown") with true.
  cbn [negb]. cbv iota. rewrite (filterfalse_list_instances thr recs Hi).
  clearbody recs. clear Hi Hl Hs. split; intro Hthr; f_equal.
  - induction recs as [| s recs IH]; [reflexivity |].
    cbn [filter]. rewrite (Hone s) by now left.
    rewrite (lt32_one thr Hthr). cbn [negb].
    f_equal. apply IH. intros s' Hs'. apply Hone. now right.
  - induction recs as [| s recs IH]; [reflexivity |].
    cbn [filter]. rewrite (Hone s) by now left.
    unfold Np.lt32 at 1. rewrite Hthr. cbn [negb].
    apply IH. intros s' Hs'. apply Hone. now right.
Qed.

Lemma filter_data_ground_truth_witness :
  exists l,
    load_data_list Ex.world (Ex2.topdown_thr 0.5) = ([EvRead "ann.json"], Ok l) /\
    List.length l = 2%nat /\
    filter_data (set_data_list (Ex2.topdown_thr 0.5) l) = Ok l.
Proof.
  eexists. split; [reflexivity |]. split; [reflexivity |].
  refine (proj1 (filter_data_ground_truth Ex.world (Ex2.topdown_thr 0.5)
                   [EvRead "ann.json"] _ {| bbox_score_thr := Some 0.5 |} 0.5
                   eq_refl eq_refl eq_refl eq_refl eq_refl) _).
  vm_compute. discriminate.
Defined.

(** The threshold 1.5 removes the loaded records; 1.00000001 does not. *)
Example filter_data_ground_truth_examples :
  (exists l,
      load_data_list Ex.world (Ex2.topdown_thr 1.5) = ([EvRead "ann.json"], Ok l) /\
      filter_data (set_data_list (Ex2.topdown_thr 1.5) l) = Ok []) /\
  (exists l,
      load_data_list Ex.world (Ex2.topdown_thr 1.00000001) =
        ([EvRead "ann.json"], Ok l) /\
      List.length l = 2%nat /\
      filter_data (set_data_list (Ex2.topdown_thr 1.00000001) l) = Ok l).
Proof.
  split; eexists; (split; [vm_compute; reflexivity |]);
    [| split]; vm_compute; reflexivity.
Qed.

(** ** Errors of the bottom-up organisation *)

Lemma bottomup_group_concatenable `{MaskLibrary} (k : Z) (g : list data_info) :
  (group_concatenable (k, g) = true ->
   exists r, bottomup_group k g = Ok r) /\
  (group_concatenable (k, g) = false ->
   bottomup_group k g = Raise ValueError).
Proof.
  unfold group_concatenable, bottomup_group, _concat_ndarray, Np.concatenate.
  cbn [snd]. destruct (filter _is_valid_instance g) as [| v vs].
  - split; [eauto | discriminate].
  - destruct (Np.same_shape (map di_keypoints (v :: vs))); cbn [rbind andb].
    + destruct (Np.same_shape (map di_keypoints_visible (v :: vs)));
        cbn [rbind]; split; eauto; discriminate.
    + split; [discriminate | reflexivity].
Qed.

Lemma bottomup_loop_concatenable `{MaskLibrary}
      (gs : list (Z * list data_info)) :
  forall acc,
    (forallb group_concatenable gs = true ->
     exists out, bottomup_loop gs acc = Ok out) /\
    (forallb group_concatenable gs = false ->
     bottomup_loop gs acc = Raise ValueError).
Proof.
  induction gs as [| [k g] gs IH]; intro acc; simpl.
  - split; [eauto | discriminate].
  - destruct (bottomup_group_concatenable k g) as [Hok Hbad].
    destruct (group_concatenable (k, g)); cbn [andb].
    + destruct (Hok eq_refl) as [r ->]. cbn [rbind].
      destruct r as [a |]; apply IH.
    + rewrite (Hbad eq_refl). cbn [rbind]. split; [discriminate | reflexivity].
Qed.

(** X9.  The bottom-up organisation returns a list only if, in every run of
    consecutive records with the same image id, the keypoint arrays of the
    valid instances have one shape: valid instances of two shapes in one run
    make it raise. *)
Theorem bottomup_ok_only_if `{MaskLibrary} (l : list data_info)
        (aggs : list data_info_bu) :
  _get_bottomup_data_infos l = Ok aggs ->
  forallb group_concatenable (Itertools.groupby di_image_id l) = true.
Proof.
  unfold _get_bottomup_data_infos. intro Hb.
  destruct (bottomup_loop_concatenable (Itertools.groupby di_image_id l) [])
    as [_ Hbad].
  destruct (forallb group_concatenable (Itertools.groupby di_image_id l));
    [reflexivity |].
  rewrite (Hbad eq_refl) in Hb. discriminate.
Qed.

Lemma bottomup_ok_only_if_witness :
  exists aggs,
    _get_bottomup_data_infos Ex2.mixed_images = Ok aggs /\
    List.length aggs = 2%nat /\
    forallb group_concatenable
            (Itertools.groupby di_image_id Ex2.mixed_images) = true.
Proof.
  eexists. split; [reflexivity |]. split; [reflexivity |].
  refine (bottomup_ok_only_if Ex2.mixed_images _ _). reflexivity.
Defined.

(** Records of two images with two and with one keypoint slot are organised;
    the same two shapes within one image are rejected. *)
Example bottomup_mixed_shapes :
  (exists aggs, _get_bottomup_data_infos Ex2.mixed_images = Ok aggs /\
                map bu_id aggs = [[1; 2]; [3]]%Z) /\
  _get_bottomup_data_infos Ex2.mixed_group = Raise ValueError.
Proof. split; [eexists; split; reflexivity | reflexivity]. Qed.

(** ** What the annotation loader reads *)

Section LoaderContent.

Context {cocomask : MaskLibrary}.

Variable self : CocoDataset.
Variable coco : coco_index.

Hypothesis distinct_ann_ids : NoDup (map ann_id (coco_anns coco)).

(** Looking an annotation up by its id finds the annotation itself. *)
Lemma find_by_ann_id (anns : list raw_ann) (a : raw_ann) :
  NoDup (map ann_id anns) -> In a anns ->
  find (fun ann => Z.eqb (ann_id ann) (ann_id a)) anns = Some a.
Proof.
  induction anns as [| b anns IH]; simpl; [tauto |]. intros Hnd Hin.
  inversion Hnd as [| ? ? Hb Hrest]; subst.
  destruct (Z.eqb (ann_id b) (ann_id a)) eqn:E.
  - apply Z.eqb_eq in E. destruct Hin as [-> | Hin]; [reflexivity |].
    exfalso. apply Hb. rewrite E. now apply in_map.
  - destruct Hin as [-> | Hin]; [rewrite Z.eqb_refl in E; discriminate |].
    now apply IH.
Qed.

Lemma loadAnns_by_ids (l : list raw_ann) :
  incl l (coco_anns coco) -> loadAnns coco (map ann_id l) = Ok l.
Proof.
  induction l as [| a l IH]; intro Hincl; simpl; [reflexivity |].
  rewrite (find_by_ann_id (coco_anns coco) a distinct_ann_ids)
    by (apply Hincl; now left).
  rewrite IH by (intros b Hb; apply Hincl; now right). reflexivity.
Qed.

Lemma loadAnns_image (img_id : Z) :
  loadAnns coco (getAnnIds coco img_id false) = Ok (image_anns coco img_id).
Proof.
  change (getAnnIds coco img_id false) with (map ann_id (image_anns coco img_id)).
  apply loadAnns_by_ids. intros a Ha. unfold image_anns in Ha.
  apply filter_In in Ha. tauto.
Qed.

Lemma loadImgs_listed (i : Z) :
  In i (getImgIds coco) -> exists img, loadImgs coco i = Ok img.
Proof.
  unfold getImgIds, loadImgs. intro Hin. apply in_map_iff in Hin.
  destruct Hin as (img & Hid & Hin).
  destruct (find (fun j => Z.eqb (img_id j) i) (coco_imgs coco)) as [j |] eqn:Ef.
  - eauto.
  - apply (find_none _ _ Ef) in Hin. simpl in Hin.
    rewrite Hid, Z.eqb_refl in Hin. discriminate.
Qed.

Lemma anns_loop_parsed (img : raw_img) (anns : list raw_ann) :
  Forall (fun a => (List.length (ann_keypoints a) mod 3 = 0)%nat) anns ->
  forall acc,
  exists recs,
    anns_loop self img anns acc = Ok (acc ++ recs) /\
    Forall2 (fun a d => exists im, parse_data_info self a im = Ok d) anns recs.
Proof.
  induction 1 as [| a anns Ha Hanns IH]; intro acc; simpl.
  - exists []. rewrite app_nil_r. split; constructor.
  - destruct (reshape_1_m1_3_total _ Ha) as [t Ht].
    assert (Hp : exists d, parse_data_info self a img = Ok d).
    { unfold parse_data_info. destruct (ann_bbox a) as [[[x y] w] h].
      rewrite Ht. cbn [rbind]. eauto. }
    destruct Hp as [d Hd]. rewrite Hd. cbn [rbind].
    destruct (IH (acc ++ [d])) as (recs & Hl & HF).
    exists (d :: recs). rewrite Hl, <- app_assoc. split; [reflexivity |].
    constructor; [eauto | exact HF].
Qed.

Lemma imgs_loop_parsed (ids : list Z) :
  incl ids (getImgIds coco) ->
  Forall (fun a => (List.length (ann_keypoints a) mod 3 = 0)%nat)
         (flat_map (image_anns coco) ids) ->
  forall acc,
  exists recs,
    imgs_loop self coco ids acc = Ok (acc ++ recs) /\
    Forall2 (fun a d => exists im, parse_data_info self a im = Ok d)
            (flat_map (image_anns coco) ids) recs.
Proof.
  induction ids as [| i ids IH]; intros Hincl Hk acc; simpl.
  - exists []. rewrite app_nil_r. split; constructor.
  - simpl in Hk. apply Forall_app in Hk. destruct Hk as [Hki Hk].
    destruct (loadImgs_listed i (Hincl i (or_introl eq_refl))) as [img ->].
    cbn [rbind]. rewrite loadAnns_image. cbn [rbind].
    destruct (anns_loop_parsed img (image_anns coco i) Hki acc)
      as (recs1 & -> & HF1). cbn [rbind].
    destruct (IH (fun j Hj => Hincl j (or_intror Hj)) Hk (acc ++ recs1))
      as (recs2 & -> & HF2).
    exists (recs1 ++ recs2). rewrite <- app_assoc. split; [reflexivity |].
    apply Forall2_app; assumption.
Qed.

Lemma anns_loop_content (img : raw_img) (anns : list raw_ann) :
  forall acc out,
    anns_loop self img anns acc = Ok out ->
    exists recs,
      out = acc ++ recs /\
      Forall2 (fun a d => exists im, parse_data_info self a im = Ok d) anns recs.
Proof.
  induction anns as [| a anns IH]; intros acc out Hl; simpl in Hl.
  - injection Hl as <-. exists []. rewrite app_nil_r. split; constructor.
  - destruct (parse_data_info self a img) as [d |] eqn:Ep;
      cbn [rbind] in Hl; [| discriminate].
    destruct (IH _ _ Hl) as (recs & -> & HF).
    exists (d :: recs). rewrite <- app_assoc. split; [reflexivity |].
    constructor; [eauto | exact HF].
Qed.

Lemma imgs_loop_content (ids : list Z) :
  forall acc out,
    imgs_loop self coco ids acc = Ok out ->
    exists recs,
      out = acc ++ recs /\
      Forall2 (fun a d => exists im, parse_data_info self a im = Ok d)
              (flat_map (image_anns coco) ids) recs.
Proof.
  induction ids as [| i ids IH]; intros acc out Hl; simpl in Hl.
  - injection Hl as <-. exists []. rewrite app_nil_r. split; constructor.
  - destruct (loadImgs coco i) as [img |]; cbn [rbind] in Hl; [| discriminate].
    rewrite loadAnns_image in Hl. cbn [rbind] in Hl.
    destruct (anns_loop self img (image_anns coco i) acc) as [acc' |] eqn:Ea;
      cbn [rbind] in Hl; [| discriminate].
    destruct (anns_loop_content _ _ _ _ Ea) as (recs1 & -> & HF1).
    destruct (IH _ _ Hl) as (recs2 & -> & HF2).
    exists (recs1 ++ recs2). rewrite <- app_assoc. split; [reflexivity |].
    simpl. apply Forall2_app; assumption.
Qed.

End LoaderContent.

Lemma map_flat_map {A B C} (g : B -> C) (f : A -> list B) (l : list A) :
  map g (flat_map f l) = flat_map (fun x => map g (f x)) l.
Proof.
  induction l as [| x l IH]; simpl; [reflexivity |].
  rewrite map_app, IH. reflexivity.
Qed.

(** Contiguity depends on the keys only. *)
Lemma contiguous_by_keys {A} (key : A -> Z) (l : list A) :
  contiguous_by key l <-> contiguous_by (fun z => z) (map key l).
Proof.
  induction l as [| x l IH]; simpl; [tauto |].
  rewrite IH. destruct l as [| y l']; simpl; [tauto |].
  rewrite map_id. tauto.
Qed.

(** A block of equal keys in front of a contiguous list without this key. *)
Lemma contiguous_block (k : Z) (b rest : list Z) :
  Forall (eq k) b -> ~ In k rest -> contiguous_by (fun z => z) rest ->
  contiguous_by (fun z => z) (b ++ rest).
Proof.
  intros Hb Hk Hrest. induction Hb as [| x b <- Hb IH]; [exact Hrest |].
  simpl. split; [| exact IH].
  destruct (b ++ rest) as [| y l'] eqn:E; [trivial |].
  destruct b as [| z b'].
  - right. simpl in E. rewrite <- E, map_id. exact Hk.
  - left. inversion Hb as [| ? ? Hz _]; subst. simpl in E.
    injection E as <- _. reflexivity.
Qed.

Lemma contiguous_blocks (f : Z -> list Z) (ids : list Z) :
  (forall i, Forall (eq i) (f i)) -> NoDup ids ->
  contiguous_by (fun z => z) (flat_map f ids).
Proof.
  intros Hf. induction ids as [| i ids IH]; intro Hnd; simpl; [exact I |].
  inversion Hnd as [| ? ? Hi Hids]; subst.
  apply (contiguous_block i); [apply Hf | | apply IH; exact Hids].
  intro Hin. apply in_flat_map in Hin. destruct Hin as (j & Hj & Hin).
  specialize (Hf j). rewrite Forall_forall in Hf.
  rewrite <- (Hf i Hin) in Hi. contradiction.
Qed.

(** X10.  From an existing annotation file with distinct annotation ids whose
    loaded annotations have keypoint lists made of triples, the loader reads
    the file once and returns one record per annotation that is no crowd and
    belongs to a listed image, image by image in the order of the image list
    and, within an image, in file order; crowd annotations and annotations of
    unlisted images give no record. *)
Theorem load_annotations_content `{MaskLibrary} (w : World) (self : CocoDataset)
        (coco : coco_index) :
  w (ann_file self) = Some (CocoFile coco) ->
  NoDup (map ann_id (coco_anns coco)) ->
  Forall (fun a => (List.length (ann_keypoints a) mod 3 = 0)%nat)
         (loadable_anns coco) ->
  exists l,
    _load_annotations w self = ([EvRead (ann_file self)], Ok l) /\
    map di_id l = map ann_id (loadable_anns coco) /\
    map di_image_id l = map ann_image_id (loadable_anns coco) /\
    List.length l = List.length (loadable_anns coco).
Proof.
  intros Hw Hnd Hk.
  destruct (imgs_loop_parsed self coco Hnd (getImgIds coco)
              (fun i Hi => Hi) Hk []) as (l & Hl & HF).
  simpl app in Hl. exists l. split.
  - unfold _load_annotations, check_file_exist, COCO. rewrite Hw.
    cbn [mbind mret mlift app]. rewrite Hl. reflexivity.
  - fold (loadable_anns coco) in HF. split; [| split].
    + apply Forall2_map_eq. eapply Forall2_impl; [| exact HF].
      intros a d [im Hp]. apply (parse_data_info_fields _ _ _ _ Hp).
    + apply Forall2_map_eq. eapply Forall2_impl; [| exact HF].
      intros a d [im Hp]. apply (parse_data_info_fields _ _ _ _ Hp).
    + symmetry. apply (Forall2_length HF).
Qed.

Lemma loadable_example : loadable_anns Ex.coco = [Ex.ann_inside; Ex.ann_right; Ex.ann_other].
Proof. reflexivity. Qed.

Lemma distinct_ids_example : NoDup (map ann_id (coco_anns Ex.coco)).
Proof. repeat constructor; simpl; intuition discriminate. Qed.

Lemma load_annotations_content_witness :
  exists l,
    _load_annotations Ex.world Ex.topdown = ([EvRead "ann.json"], Ok l) /\
    map di_id l = [11; 12; 21]%Z /\
    map di_id l = map ann_id (loadable_anns Ex.coco).
Proof.
  destruct (load_annotations_content Ex.world Ex.topdown Ex.coco eq_refl
              distinct_ids_example) as (l & Hl & Hid & _).
  { rewrite loadable_example. repeat constructor. }
  exists l. split; [exact Hl |]. split; [| exact Hid].
  rewrite Hid. reflexivity.
Defined.

(** X11.  If moreover the image ids of the file are distinct, the records of
    each image are consecutive in the loaded list, and the bottom-up
    organisation of the loaded list has no two aggregates with the same image
    id. *)
Theorem load_annotations_contiguous `{MaskLibrary} (w : World)
        (self : CocoDataset) (coco : coco_index) (t : list event)
        (l : list data_info) :
  w (ann_file self) = Some (CocoFile coco) ->
  NoDup (map ann_id (coco_anns coco)) ->
  NoDup (getImgIds coco) ->
  _load_annotations w self = (t, Ok l) ->
  contiguous_by di_image_id l /\
  forall aggs,
    _get_bottomup_data_infos l = Ok aggs -> NoDup (map bu_image_id aggs).
Proof.
  intros Hw Hnd Hni Hl.
  assert (Hc : contiguous_by di_image_id l).
  { unfold _load_annotations, check_file_exist, COCO in Hl. rewrite Hw in Hl.
    cbn [mbind mret mlift app] in Hl. injection Hl as _ Hl.
    destruct (imgs_loop_content self coco Hnd _ _ _ Hl) as (recs & -> & HF).
    simpl app. apply contiguous_by_keys.
    replace (map di_image_id recs)
      with (map ann_image_id (flat_map (image_anns coco) (getImgIds coco))).
    - rewrite map_flat_map. apply contiguous_blocks; [| exact Hni].
      intro i. apply Forall_forall. intros k Hin. apply in_map_iff in Hin.
      destruct Hin as (a & <- & Ha). unfold image_anns in Ha.
      apply filter_In in Ha. destruct Ha as [_ Ha].
      apply andb_prop in Ha. destruct Ha as [Ha _].
      apply Z.eqb_eq in Ha. symmetry. exact Ha.
    - symmetry. apply Forall2_map_eq. eapply Forall2_impl; [| exact HF].
      intros a d [im Hp]. apply (parse_data_info_fields _ _ _ _ Hp). }
  split; [exact Hc |].
  intros aggs Hb. unfold _get_bottomup_data_infos in Hb.
  apply bottomup_loop_spec in Hb. destruct Hb as (news & -> & HF).
  simpl app. rewrite (aggregate_image_ids _ _ HF).
  apply NoDup_map_filter. apply groupby_keys_NoDup. exact Hc.
Qed.

Lemma load_annotations_contiguous_witness :
  exists l,
    _load_annotations Ex.world Ex.topdown = ([EvRead "ann.json"], Ok l) /\
    List.length l = 3%nat /\
    contiguous_by di_image_id l.
Proof.
  eexists. split; [reflexivity |]. split; [reflexivity |].
  refine (proj1 (load_annotations_contiguous Ex.world Ex.topdown Ex.coco
                   [EvRead "ann.json"] _ eq_refl distinct_ids_example _ eq_refl)).
  repeat constructor; simpl; intuition discriminate.
Defined.

(** ** Errors of the detection adapter *)

Lemma reshape_1_4_length (l : list Q) (row : Q * Q * Q * Q) :
  Np.reshape_1_4 l = Ok row -> (4 <= List.length l)%nat.
Proof.
  unfold Np.reshape_1_4.
  destruct l as [| a [| b [| c [| d l']]]]; simpl; try discriminate.
  intros _. lia.
Qed.

Lemma det_loop_ok_inv `{MaskLibrary} (self : CocoDataset) (coco : coco_index)
      (K : nat) (det_results : list det) :
  forall data_list id_ out,
    det_loop self coco K det_results data_list id_ = Ok out ->
    forall det, In det (humans det_results) ->
                (4 <= List.length (det_bbox det))%nat /\
                exists img, loadImgs coco (det_image_id det) = Ok img.
Proof.
  induction det_results as [| d rest IH]; intros data_list id_ out Hl det Hin.
  - destruct Hin.
  - simpl in Hl. unfold humans in Hin. simpl in Hin.
    destruct (Z.eqb (det_category_id d) 1) eqn:Ec; simpl in Hl.
    + destruct (loadImgs coco (det_image_id d)) as [img |] eqn:Ei;
        cbn [rbind] in Hl; [| discriminate].
      destruct (Np.reshape_1_4 (det_bbox d)) as [row |] eqn:Er;
        cbn [rbind] in Hl; [| discriminate].
      destruct Hin as [<- | Hin].
      * split; [exact (reshape_1_4_length _ _ Er) | eauto].
      * exact (IH _ _ _ Hl det Hin).
    + exact (IH _ _ _ Hl det Hin).
Qed.

(** X12.  The detection adapter returns a list only if every detection of
    category 1 has at least 4 box values and an image known to the annotation
    index: one malformed detection of category 1 makes the whole load fail,
    while detections of other categories are not inspected. *)
Theorem load_detection_results_ok_only_if `{MaskLibrary} (w : World)
        (self : CocoDataset) (bbox_path : string) (coco : coco_index)
        (det_results : list det) (t : list event) (l : list det_info) :
  bbox_file self = Some bbox_path ->
  w (ann_file self) = Some (CocoFile coco) ->
  w bbox_path = Some (DetFile det_results) ->
  _load_detection_results w self = (t, Ok l) ->
  forall det,
    In det det_results -> det_category_id det = 1%Z ->
    (4 <= List.length (det_bbox det))%nat /\
    exists img, loadImgs coco (det_image_id det) = Ok img.
Proof.
  intros Hb Ha Hd Hl det Hin Hc.
  unfold _load_detection_results, check_file_exist, load, COCO in Hl.
  rewrite Hb, Ha, Hd in Hl. cbn [mbind mret mlift app] in Hl.
  injection Hl as _ Hl.
  apply (det_loop_ok_inv self coco _ det_results [] 0%Z l Hl det).
  unfold humans. apply filter_In. split; [exact Hin |].
  rewrite Hc. reflexivity.
Qed.

Lemma load_detection_results_ok_only_if_witness :
  exists l,
    _load_detection_results Ex.world Ex.with_detections =
      ([EvRead "dets.json"; EvRead "ann.json"], Ok l) /\
    forall det,
      In det Ex.dets -> det_category_id det = 1%Z ->
      (4 <= List.length (det_bbox det))%nat /\
      exists img, loadImgs Ex.coco (det_image_id det) = Ok img.
Proof.
  eexists. split; [reflexivity |].
  refine (load_detection_results_ok_only_if Ex.world Ex.with_detections
            "dets.json" Ex.coco Ex.dets _ _ eq_refl eq_refl eq_refl eq_refl).
Defined.

(** A detection of category 1 with three box values makes the load fail
    although the detection before it is well formed. *)
Example load_detection_results_malformed :
  _load_detection_results
    (fun path => if String.eqb path "dets.json" then Some (DetFile Ex2.bad_dets)
                 else Ex.world path)
    Ex.with_detections =
  ([EvRead "dets.json"; EvRead "ann.json"], Raise ValueError).
Proof. reflexivity. Qed.

(** ** Construction *)

Lemma super_init_config `{MaskLibrary} (w : World) (self self' : CocoDataset)
      (t : list event) :
  super_init w self = (t, Ok self') -> same_config self self'.
Proof.
  unfold super_init, full_init.
  destruct (lazy_init self).
  - intro Hs. injection Hs as _ <-. repeat split.
  - destruct (load_data_list w self) as [t0 [l |]];
      cbn [mbind mret mlift app]; [| discriminate].
    destruct (filter_data (set_data_list self l)) as [l' |];
      cbn [mbind mret mlift app]; [| discriminate].
    intro Hs. injection Hs as _ <-. repeat split.
Qed.

(** X13.  A dataset object returned by the constructor has the configuration
    it was given, and this configuration is valid: [data_mode] is "topdown"
    or "bottomup", and a [bbox_file] is set only in top-down mode with
    [test_mode]. *)
Theorem init_establishes_config `{MaskLibrary} (w : World)
        (args self : CocoDataset) (t : list event) :
  __init__ w args = (t, Ok self) ->
  same_config args self /\ valid_config self.
Proof.
  unfold __init__. intro Hi.
  destruct (String.eqb (data_mode args) "topdown") eqn:Et;
    destruct (String.eqb (data_mode args) "bottomup") eqn:Eb;
    cbn [orb negb] in Hi; try discriminate;
    destruct (bbox_file_set args) eqn:Ef;
    cbn [negb] in Hi; try discriminate;
    try (destruct (test_mode args) eqn:Em; cbn [negb] in Hi; try discriminate);
    apply super_init_config in Hi;
    (assert (Hc : same_config args self)
       by (destruct Hi as (? & ? & ? & ? & ? & ? & ? & ?); repeat split; assumption));
    (split; [exact Hc |]);
    destruct Hc as (_ & Hbf & Hdm & _ & _ & _ & Htm & _);
    unfold valid_config, bbox_file_set in *; rewrite <- Hbf, <- Hdm, <- Htm;
    try apply String.eqb_eq in Et; try apply String.eqb_eq in Eb;
    (split; [tauto |]); rewrite ?Ef; intro Hx; try discriminate; tauto.
Qed.

Lemma init_establishes_config_witness :
  exists self,
    __init__ Ex.world Ex.with_detections =
      ([EvRead "dets.json"; EvRead "ann.json"], Ok self) /\
    List.length (data_list self) = 2%nat /\
    same_config Ex.with_detections self /\ valid_config self.
Proof.
  eexists. split; [reflexivity |]. split; [reflexivity |].
  apply (init_establishes_config Ex.world Ex.with_detections _
           [EvRead "dets.json"; EvRead "ann.json"]).
  reflexivity.
Defined.

(** ** The loaded list *)

(** In top-down mode the loaded list holds no aggregate. *)
Lemma load_data_list_instance_level `{MaskLibrary} (w : World)
      (self : CocoDataset) (t : list event) (l : list sample) :
  data_mode self = "topdown"%string ->
  load_data_list w self = (t, Ok l) -> Forall instance_level l.
Proof.
  unfold load_data_list. intros Hm Hl.
  destruct (bbox_file_set self).
  - destruct (_load_detection_results w self) as [t0 [dl | e]];
      cbn [mbind mret mlift app] in Hl; [| discriminate].
    injection Hl as _ <-. apply Forall_forall. intros s Hs.
    apply in_map_iff in Hs. destruct Hs as (d & <- & _). exact I.
  - destruct (_load_annotations w self) as [t0 [dl | e]];
      cbn [mbind mret mlift app] in Hl; [| discriminate].
    rewrite Hm in Hl. change (String.eqb "topdown" "topdown") with true in Hl.
    cbn [mbind mret mlift app] in Hl. injection Hl as _ <-.
    apply Forall_forall. intros s Hs. apply in_map_iff in Hs.
    destruct Hs as (d & <- & _). exact I.
Qed.

(** X14.  The list that [load_data_list] returns holds records of one kind:
    detection records, which are not validated, when a detection file is
    set; otherwise in top-down mode instance records that are all valid, and
    in the other mode aggregates with at least one instance each. *)
Theorem load_data_list_kinds `{MaskLibrary} (w : World) (self : CocoDataset)
        (t : list event) (l : list sample) :
  load_data_list w self = (t, Ok l) ->
  (bbox_file_set self = true ->
   Forall (fun s => exists d, s = Detection d) l) /\
  (bbox_file_set self = false -> data_mode self = "topdown"%string ->
   Forall (fun s => exists d, s = Instance d /\ _is_valid_instance d = true) l) /\
  (bbox_file_set self = false -> data_mode self <> "topdown"%string ->
   Forall (fun s => exists a, s = Aggregate a /\
                              (1 <= List.length (bu_id a))%nat) l).
Proof.
  unfold load_data_list. intro Hl.
  destruct (bbox_file_set self) eqn:Eb.
  - split; [| split; discriminate]. intros _.
    destruct (_load_detection_results w self) as [t0 [dl | e]];
      cbn [mbind mret mlift app] in Hl; [| discriminate].
    injection Hl as _ <-. apply Forall_forall. intros s Hs.
    apply in_map_iff in Hs. destruct Hs as (d & <- & _). eauto.
  - split; [discriminate |].
    destruct (_load_annotations w self) as [t0 [dl | e]];
      cbn [mbind mret mlift app] in Hl; [| discriminate].
    split; intros _ Hm.
    + rewrite Hm in Hl. change (String.eqb "topdown" "topdown") with true in Hl.
      cbn [mbind mret mlift app] in Hl. injection Hl as _ <-.
      apply Forall_forall. intros s Hs. apply in_map_iff in Hs.
      destruct Hs as (d & <- & Hd). exists d. split; [reflexivity |].
      unfold _get_topdown_data_infos in Hd. apply filter_In in Hd. tauto.
    + apply String.eqb_neq in Hm. rewrite Hm in Hl.
      destruct (_get_bottomup_data_infos dl) as [aggs | e] eqn:Eg;
        cbn [mbind mret mlift app] in Hl; [| discriminate].
      injection Hl as _ <-.
      apply Forall_forall. intros s Hs. apply in_map_iff in Hs.
      destruct Hs as (a & <- & Ha). exists a. split; [reflexivity |].
      unfold _get_bottomup_data_infos in Eg.
      apply bottomup_loop_spec in Eg. destruct Eg as (news & -> & HF).
      simpl in Ha. destruct (Forall2_in_r _ _ _ _ HF Ha) as ([k g] & _ & Hga).
      simpl in Hga. apply bottomup_group_some in Hga.
      destruct Hga as (v & vs & _ & _ & _ & _ & _ & _ & _ & _ & _ & _ & _ & _
                       & Hid & _).
      rewrite Hid. simpl. lia.
Qed.

Lemma load_data_list_kinds_witness :
  exists l,
    load_data_list Ex.world (Ex.dataset "bottomup" None None false false) =
      ([EvRead "ann.json"], Ok l) /\
    List.length l = 2%nat /\
    Forall (fun s => exists a, s = Aggregate a /\
                               (1 <= List.length (bu_id a))%nat) l.
Proof.
  eexists. split; [reflexivity |]. split; [reflexivity |].
  refine (proj2 (proj2 (load_data_list_kinds Ex.world
                          (Ex.dataset "bottomup" None None false false)
                          [EvRead "ann.json"] _ eq_refl)) eq_refl _).
  discriminate.
Defined.

Lemma filter_subset `{MaskLibrary} (thr : Q) (l : list sample) :
  forall s,
    In s (filter (fun s => negb (Np.lt32 (sample_score s) thr)) l) -> In s l.
Proof. intros s Hs. apply filter_In in Hs. tauto. Qed.

(** X15.  In top-down mode the filter cannot fail on a loaded list: applied
    to the list that [load_data_list] returned, [filter_data] returns a
    sublist of it, and the whole list when no score threshold is
    configured. *)
Theorem filter_data_after_load `{MaskLibrary} (w : World) (self : CocoDataset)
        (t : list event) (l : list sample) :
  data_mode self = "topdown"%string ->
  load_data_list w self = (t, Ok l) ->
  exists l',
    filter_data (set_data_list self l) = Ok l' /\
    (forall s, In s l' -> In s l) /\
    ((filter_cfg self = None \/
      exists cfg, filter_cfg self = Some cfg /\ bbox_score_thr cfg = None) ->
     l' = l).
Proof.
  intros Hm Hl.
  pose proof (load_data_list_instance_level w self t l Hm Hl) as Hi.
  unfold filter_data. cbn [set_data_list filter_cfg data_mode data_list].
  destruct (filter_cfg self) as [cfg |] eqn:Ec.
  - destruct (bbox_score_thr cfg) as [thr |] eqn:Et.
    + rewrite Hm. change (String.eqb "topdown" "topdown") with true.
      cbn [negb]. cbv iota. rewrite (filterfalse_list_instances thr l Hi).
      eexists. split; [reflexivity |]. split; [apply filter_subset |].
      intros [Hn | (cfg' & Hc' & Hn)]; [discriminate |].
      injection Hc' as <-. congruence.
    + exists l. repeat split; trivial.
  - exists l. repeat split; trivial.
Qed.

Lemma filter_data_after_load_witness :
  exists l l',
    load_data_list Ex.world Ex.with_detections =
      ([EvRead "dets.json"; EvRead "ann.json"], Ok l) /\
    filter_data (set_data_list Ex.with_detections l) = Ok l' /\
    List.length l' = 2%nat.
Proof.
  eexists.
  destruct (filter_data_after_load Ex.world Ex.with_detections
              [EvRead "dets.json"; EvRead "ann.json"] _ eq_refl eq_refl)
    as (l' & Hf & _).
  exists l'. split; [reflexivity |]. split; [exact Hf |].
  vm_compute in Hf. injection Hf as <-. reflexivity.
Defined.

(** X16.  When the annotation file is missing, or a detection file is set
    and missing, [load_data_list] raises [FileNotFoundError] before it reads
    any file. *)
Theorem load_data_list_missing_file `{MaskLibrary} (w : World)
        (self : CocoDataset) :
  (w (ann_file self) = None \/
   exists bbox_path,
     bbox_file_set self = true /\ bbox_file self = Some bbox_path /\
     w bbox_path = None) ->
  load_data_list w self = ([], Raise FileNotFoundError).
Proof.
  unfold load_data_list, _load_detection_results, _load_annotations,
    check_file_exist, bbox_file_set.
  intros [Ha | (p & Hs & Hb & Hp)].
  - rewrite Ha. destruct (bbox_file self) as [p |]; [| reflexivity].
    destruct (negb (String.eqb p "")); reflexivity.
  - rewrite Hb in *. rewrite Hs, Hp.
    destruct (w (ann_file self)); reflexivity.
Qed.

Lemma load_data_list_missing_file_witness :
  load_data_list Ex.world
    (Ex.dataset "topdown" (Some "missing.json"%string) None true false) =
  ([], Raise FileNotFoundError).
Proof.
  apply (load_data_list_missing_file Ex.world).
  right. exists "missing.json"%string. repeat split.
Defined.

(** ** Lists without valid instance *)

Lemma bottomup_loop_no_valid `{MaskLibrary} (gs : list (Z * list data_info)) :
  filter _is_valid_instance (List.concat (map snd gs)) = [] ->
  forall acc, bottomup_loop gs acc = Ok acc.
Proof.
  induction gs as [| [k g] gs IH]; intros Hnone acc; simpl; [reflexivity |].
  simpl in Hnone. rewrite filter_app in Hnone.
  apply app_eq_nil in Hnone. destruct Hnone as [Hg Hgs].
  rewrite (bottomup_group_skip k g Hg). cbn [rbind]. apply IH. exact Hgs.
Qed.

(** X17.  The bottom-up organisation returns the empty list exactly when no
    record of the input is valid; in particular it does so, without raising,
    on the empty input and on invalid records of any shape. *)
Theorem bottomup_empty_iff `{MaskLibrary} (l : list data_info) :
  _get_bottomup_data_infos l = Ok [] <-> filter _is_valid_instance l = [].
Proof.
  unfold _get_bottomup_data_infos. split.
  - intro Hb. apply bottomup_loop_spec in Hb.
    destruct Hb as (news & Hn & HF). simpl in Hn. subst news.
    inversion HF as [Hgs |]. 
    rewrite <- (groupby_concat di_image_id l).
    assert (Hall : forall g, In g (Itertools.groupby di_image_id l) ->
                             has_valid g = false).
    { intros g Hg. destruct (has_valid g) eqn:Ev; [| reflexivity].
      assert (Hin : In g (filter has_valid (Itertools.groupby di_image_id l)))
        by (apply filter_In; split; assumption).
      rewrite <- Hgs in Hin. destruct Hin. }
    clear HF Hgs.
    induction (Itertools.groupby di_image_id l) as [| g gs IH];
      [reflexivity |].
    simpl. rewrite filter_app.
    rewrite (proj1 (has_valid_filter g) (Hall g (or_introl eq_refl))).
    apply IH. intros g' Hg'. apply Hall. now right.
  - intro Hnone. apply bottomup_loop_no_valid.
    rewrite groupby_concat. exact Hnone.
Qed.

(** Records without keypoints of two shapes in one image give no aggregate
    and no error. *)
Example bottomup_all_invalid :
  _get_bottomup_data_infos
    [Ex.zero_kpt_record 1 1; Ex.degenerate_record 2 1; Ex.crowd_record 3 2] =
  Ok [].
Proof. reflexivity. Qed.
